(** * Poll-until-available helpers of aws-async-assertions

    A shallow embedding of the two DynamoDB pollers of the library,
    [getItem] (src/dynamo-db/get-item.ts) and [query]
    (src/dynamo-db/query.ts), together with the properties of their
    retry loops and of the requests they build.

    The store client and the [delay] helper are the only effects of the
    two functions.  A run is modelled by explicit state passing: the state
    is the history of effects performed so far, in the order they
    happened, and the store is a function of that history and of the
    request, so that what the store answers may depend on every call and
    every pause that came before.

    The one-shot helpers of the library follow the pollers: [putItem]
    (src/dynamo-db/put-item.ts), [generateRandomId]
    (src/utils/generate-random-id.ts), and the three helpers built on
    [fetch], [httpCall] (src/utils/http-call.ts), [generateAccessToken]
    (src/utils/generate-access-token.ts) and [generateUserAccessToken]
    (src/cognito/generate-user-access-token.ts).  Serializers of the
    platform ([JSON.stringify], base64, form encoding, [toUpperCase])
    are parameters of the functions that call them. *)

From Stdlib Require Import ZArith List Lia.
From stdpp Require Import base option list gmap strings pretty.
From Equations Require Import Equations.
Import ListNotations.
Local Open Scope Z_scope.

(** ** The JavaScript run time, as far as the pollers use it *)

Module Js.

(** What a [throw] can carry out of a poller: a value the store client
   rejected with, rethrown as it is, or an [Error] object that the
   poller built itself with [new Error(message)]. *)
Inductive Exception (E : Type) : Type :=
| StoreFailure (error : E)
| JsError (message : string).
Arguments StoreFailure {E} error.
Arguments JsError {E} message.

(** How an [async] function settles. *)
Inductive Completion (A E : Type) : Type :=
| Returned (value : A)
| Thrown (exn : Exception E).
Arguments Returned {A E} value.
Arguments Thrown {A E} exn.

(** How [client.send(command)] settles. *)
Inductive Reply (Resp E : Type) : Type :=
| Resolves (response : Resp)
| Rejects (error : E).
Arguments Resolves {Resp E} response.
Arguments Rejects {Resp E} error.

(** The observable effects: a command sent to the store, a call of
   [delay(seconds)], and a [console.error] of a caught error. *)
Inductive Event (Req E : Type) : Type :=
| EvSend (command : Req)
| EvDelay (seconds : Z)
| EvConsoleError (error : E).
Arguments EvSend {Req E} command.
Arguments EvDelay {Req E} seconds.
Arguments EvConsoleError {Req E} error.

(** Truthiness of a value of type [string | undefined]: [undefined] and
   the empty string are falsy, every other string is truthy. *)
Definition truthy_string (s : option string) : bool :=
  match s with
  | None => false
  | Some s => negb (String.eqb s "")
  end.

(** Truthiness of a value of type [object | undefined]: every object,
   the empty one included, is truthy. *)
Definition truthy_object {A : Type} (o : option A) : bool :=
  match o with
  | None => false
  | Some _ => true
  end.

(** [e ?? d] *)
Definition nullish {A : Type} (e : option A) (d : A) : A :=
  match e with
  | None => d
  | Some v => v
  end.

(** [{ ...a, ...b }] on objects used as maps: the keys of both, and the
   value of [b] where both define a key. *)
Definition spread2 {V : Type} (a b : gmap string V) : gmap string V :=
  b ∪ a.

Definition inspect {A : Type} (x : A) : { y : A | x = y } :=
  exist _ x eq_refl.

End Js.
Import Js.

(** ** Histories *)

Section History.
Context {Req E : Type}.

Definition History : Type := list (Event Req E).

(** The commands sent to the store, in order. *)
Definition sends (h : History) : list Req :=
  omap (fun ev => match ev with EvSend c => Some c | _ => None end) h.

(** The durations of the pauses, in order. *)
Definition delays (h : History) : list Z :=
  omap (fun ev => match ev with EvDelay s => Some s | _ => None end) h.

(** The history of [k] iterations that each sent [params], found
   nothing and paused for [seconds]. *)
Fixpoint failed_rounds (params : Req) (seconds : Z) (k : nat) : History :=
  match k with
  | O => []
  | S k' => failed_rounds params seconds k' ++ [EvSend params; EvDelay seconds]
  end.

Lemma sends_app (h1 h2 : History) : sends (h1 ++ h2) = sends h1 ++ sends h2.
Proof. apply omap_app. Qed.

Lemma delays_app (h1 h2 : History) : delays (h1 ++ h2) = delays h1 ++ delays h2.
Proof. apply omap_app. Qed.

Lemma replicate_snoc {A : Type} (k : nat) (x : A) :
  replicate k x ++ [x] = replicate (S k) x.
Proof. induction k as [|k IH]; simpl; [reflexivity | now rewrite IH]. Qed.

Lemma sends_failed_rounds params seconds k :
  sends (failed_rounds params seconds k) = replicate k params.
Proof.
  induction k as [|k IH]; [reflexivity|].
  cbn [failed_rounds]. rewrite sends_app, IH. apply replicate_snoc.
Qed.

Lemma delays_failed_rounds params seconds k :
  delays (failed_rounds params seconds k) = replicate k seconds.
Proof.
  induction k as [|k IH]; [reflexivity|].
  cbn [failed_rounds]. rewrite delays_app, IH. apply replicate_snoc.
Qed.

End History.
Arguments History : clear implicits.

(** ** The retry loop, unrolled

    Both pollers run the same loop: [iteration] counts from 1 up to
    [maxIterations]; an iteration sends the command, returns when the
    response is accepted, rethrows what the client rejected with (after
    a [console.error]), and otherwise calls [delay] and goes round
    again.  [unrolled n] is that loop with [n] iterations left; it is
    only a device for the proofs, each poller's own loop below is
    written as in its source and then shown equal to it. *)

Section Unrolled.
Context {Req Resp A E : Type}.
Variable client : History Req E -> Req -> Reply Resp E.
Variable params : Req.
Variable accept : Resp -> option A.
Variable seconds : Z.
Variable message : string.

Fixpoint unrolled (n : nat) (h : History Req E)
  : Completion A E * History Req E :=
  match n with
  | O => (Thrown (JsError message), h)
  | S n' =>
      match client h params with
      | Rejects error =>
          (Thrown (StoreFailure error),
           h ++ [EvSend params; EvConsoleError error])
      | Resolves response =>
          match accept response with
          | Some value => (Returned value, h ++ [EvSend params])
          | None => unrolled n' (h ++ [EvSend params; EvDelay seconds])
          end
      end
  end.

(** An iteration that found nothing and did not throw. *)
Definition round_fails (h : History Req E) : Prop :=
  exists response, client h params = Resolves response /\ accept response = None.

End Unrolled.

(** ** The single-record poller: src/dynamo-db/get-item.ts *)

Module GetItem.

(** [interface KeySchema { pk: string; sk?: string }] *)
Record KeySchema : Type := { pk : string; sk : option string }.

(** The input of [GetCommand]; [Key] is the object literal built by
   [getItem], a map from field names to the field values. *)
Record GetCommandInput : Type :=
  { TableName : string; Key : gmap string string }.

Section WithValues.
Context {V E : Type}.

(** A stored record: attribute names to attribute values.  The poller
   never looks inside a value, so their type is a parameter. *)
Definition Record_ : Type := gmap string V.

(** The part of [GetCommandOutput] that [getItem] reads. *)
Record GetCommandOutput : Type := { Item : option Record_ }.

Definition Client : Type :=
  History GetCommandInput E -> GetCommandInput -> Reply GetCommandOutput E.

(** [keys.sk && { sk: keys.sk }], spread into an object literal: a falsy
   [keys.sk] ([undefined] or the empty string) is the value of the [&&]
   and spreads to no property at all. *)
Definition sk_spread (keys : KeySchema) : gmap string string :=
  match sk keys with
  | None => ∅
  | Some s => if truthy_string (Some s) then {[ "sk"%string := s ]} else ∅
  end.

(** [const params = { TableName: tableName,
                      Key: { pk: keys.pk, ...(keys.sk && { sk: keys.sk }) } }] *)
Definition getItem_params (keys : KeySchema) (tableName : string)
  : GetCommandInput :=
  {| TableName := tableName;
     Key := spread2 {[ "pk"%string := pk keys ]} (sk_spread keys) |}.

Section Loop.
Variable docClient : Client.
Variable params : GetCommandInput.
Variables maxIterations delayInSeconds : Z.

(** [while (iteration <= maxIterations) { ... iteration++ }] followed by
   [throw new Error('record not found')]. *)
Equations? getItem_loop (iteration : Z) (h : History GetCommandInput E)
  : Completion Record_ E * History GetCommandInput E
  by wf (Z.to_nat (maxIterations + 1 - iteration)) lt :=
getItem_loop iteration h with inspect (iteration <=? maxIterations) := {
  | exist _ true Hle with docClient h params := {
      | Rejects error =>
          (Thrown (StoreFailure error),
           h ++ [EvSend params; EvConsoleError error])
      | Resolves response with Item response := {
          | Some item => (Returned item, h ++ [EvSend params])
          | None =>
              getItem_loop (iteration + 1)
                (h ++ [EvSend params; EvDelay delayInSeconds]) } }
  | exist _ false _ => (Thrown (JsError "record not found"), h) }.
Proof. lia. Qed.

End Loop.

(** [getItem(keys, tableName, maxIterations = 10, delayInSeconds = 2)];
   an omitted argument is [None].  The result is the completion of the
   call and the history of its effects. *)
Definition getItem (docClient : Client) (keys : KeySchema)
    (tableName : string) (maxIterations delayInSeconds : option Z)
  : Completion Record_ E * History GetCommandInput E :=
  let maxIterations := nullish maxIterations 10 in
  let delayInSeconds := nullish delayInSeconds 2 in
  let params := getItem_params keys tableName in
  getItem_loop docClient params maxIterations delayInSeconds 1 [].

End WithValues.
Arguments Record_ : clear implicits.
Arguments GetCommandOutput : clear implicits.
Arguments Client : clear implicits.

End GetItem.

(** ** The collection poller: src/dynamo-db/query.ts *)

Module Query.

Section WithValues.
Context {V E : Type}.

Definition Record_ : Type := gmap string V.

(** [interface QueryParams]; an optional field that the caller left out
   is [None]. *)
Record QueryParams : Type := {
  tableName : string;
  keyConditionExpression : string;
  expressionAttributeValues : gmap string V;
  expressionAttributeNames : option (gmap string string);
  indexName : option string;
  limit : option Z;
  filterExpression : option string;
  filterAttributeValues : option (gmap string V);
  consistentRead : option bool;
  lastEvaluatedKey : option (gmap string V);
  scanIndexForward : option bool;
  maxIterations : option Z;
  delayInSeconds : option Z
}.

(** The fields of [QueryCommandInput] that [query] writes; a property
   that is not set, or set to [undefined], is [None]. *)
Record QueryCommandInput : Type := {
  TableName : string;
  KeyConditionExpression : string;
  ExpressionAttributeValues : gmap string V;
  IndexName : option string;
  Limit : option Z;
  ConsistentRead : option bool;
  ExclusiveStartKey : option (gmap string V);
  ScanIndexForward : option bool;
  ExpressionAttributeNames : option (gmap string string);
  FilterExpression : option string
}.

(** The fields of [QueryCommandOutput] that [query] reads. *)
Record QueryCommandOutput : Type := {
  Items : option (list Record_);
  LastEvaluatedKey : option (gmap string V)
}.

(** What [query] resolves to: [{ items, lastEvaluatedKey }]. *)
Record QueryResult : Type := {
  items : list Record_;
  resultLastEvaluatedKey : option (gmap string V)
}.

Definition Client : Type :=
  History QueryCommandInput E -> QueryCommandInput -> Reply QueryCommandOutput E.

(** Assignments to properties of [baseParams]. *)
Definition set_ExpressionAttributeNames (names : option (gmap string string))
    (b : QueryCommandInput) : QueryCommandInput :=
  {| TableName := TableName b;
     KeyConditionExpression := KeyConditionExpression b;
     ExpressionAttributeValues := ExpressionAttributeValues b;
     IndexName := IndexName b;
     Limit := Limit b;
     ConsistentRead := ConsistentRead b;
     ExclusiveStartKey := ExclusiveStartKey b;
     ScanIndexForward := ScanIndexForward b;
     ExpressionAttributeNames := names;
     FilterExpression := FilterExpression b |}.

Definition set_FilterExpression (expression : option string)
    (b : QueryCommandInput) : QueryCommandInput :=
  {| TableName := TableName b;
     KeyConditionExpression := KeyConditionExpression b;
     ExpressionAttributeValues := ExpressionAttributeValues b;
     IndexName := IndexName b;
     Limit := Limit b;
     ConsistentRead := ConsistentRead b;
     ExclusiveStartKey := ExclusiveStartKey b;
     ScanIndexForward := ScanIndexForward b;
     ExpressionAttributeNames := ExpressionAttributeNames b;
     FilterExpression := expression |}.

Definition set_ExpressionAttributeValues (values : gmap string V)
    (b : QueryCommandInput) : QueryCommandInput :=
  {| TableName := TableName b;
     KeyConditionExpression := KeyConditionExpression b;
     ExpressionAttributeValues := values;
     IndexName := IndexName b;
     Limit := Limit b;
     ConsistentRead := ConsistentRead b;
     ExclusiveStartKey := ExclusiveStartKey b;
     ScanIndexForward := ScanIndexForward b;
     ExpressionAttributeNames := ExpressionAttributeNames b;
     FilterExpression := FilterExpression b |}.

(** The construction of [baseParams]: the object literal, then the two
   conditional blocks that assign to it, in the order of the source.
   [scanIndexForward = true] is the default of the destructured
   parameter. *)
Definition query_params (p : QueryParams) : QueryCommandInput :=
  let scanIndexForward := nullish (scanIndexForward p) true in
  let baseParams :=
    {| TableName := tableName p;
       KeyConditionExpression := keyConditionExpression p;
       ExpressionAttributeValues := expressionAttributeValues p;
       IndexName := indexName p;
       Limit := limit p;
       ConsistentRead := Some (nullish (consistentRead p) false);
       ExclusiveStartKey := lastEvaluatedKey p;
       ScanIndexForward := Some scanIndexForward;
       ExpressionAttributeNames := None;
       FilterExpression := None |} in
  let baseParams :=
    if truthy_object (expressionAttributeNames p)
    then set_ExpressionAttributeNames (expressionAttributeNames p) baseParams
    else baseParams in
  let baseParams :=
    if truthy_string (filterExpression p) then
      let baseParams := set_FilterExpression (filterExpression p) baseParams in
      match filterAttributeValues p with
      | Some filterAttributeValues =>
          set_ExpressionAttributeValues
            (spread2 (ExpressionAttributeValues baseParams) filterAttributeValues)
            baseParams
      | None => baseParams
      end
    else baseParams in
  baseParams.

(** [const items = data.Items ?? []] and the test
   [items.length > 0 || data.LastEvaluatedKey]. *)
Definition page_items (data : QueryCommandOutput) : list Record_ :=
  nullish (Items data) [].

Definition page_found (data : QueryCommandOutput) : bool :=
  (0 <? Z.of_nat (length (page_items data)))
  || truthy_object (LastEvaluatedKey data).

Section Loop.
Variable dynamoDb : Client.
Variable baseParams : QueryCommandInput.
Variables maxIterations delayInSeconds : Z.

(** [while (iteration <= maxIterations) { ... iteration++ }] followed by
   [throw new Error('query returned no results after max retries')]. *)
Equations? query_loop (iteration : Z) (h : History QueryCommandInput E)
  : Completion QueryResult E * History QueryCommandInput E
  by wf (Z.to_nat (maxIterations + 1 - iteration)) lt :=
query_loop iteration h with inspect (iteration <=? maxIterations) := {
  | exist _ true Hle with dynamoDb h baseParams := {
      | Rejects error =>
          (Thrown (StoreFailure error),
           h ++ [EvSend baseParams; EvConsoleError error])
      | Resolves data with page_found data := {
          | true =>
              (Returned {| items := page_items data;
                           resultLastEvaluatedKey := LastEvaluatedKey data |},
               h ++ [EvSend baseParams])
          | false =>
              query_loop (iteration + 1)
                (h ++ [EvSend baseParams; EvDelay delayInSeconds]) } }
  | exist _ false _ =>
      (Thrown (JsError "query returned no results after max retries"), h) }.
Proof. lia. Qed.

End Loop.

(** [query(params)], with [maxIterations = 10] and [delayInSeconds = 2]
   the defaults of the destructured parameter. *)
Definition query (dynamoDb : Client) (p : QueryParams)
  : Completion QueryResult E * History QueryCommandInput E :=
  let maxIterations := nullish (maxIterations p) 10 in
  let delayInSeconds := nullish (delayInSeconds p) 2 in
  let baseParams := query_params p in
  query_loop dynamoDb baseParams maxIterations delayInSeconds 1 [].

(** The page an accepted response is returned as, seen as a partial
   function of the response. *)
Definition accept (data : QueryCommandOutput) : option QueryResult :=
  if page_found data
  then Some {| items := page_items data;
               resultLastEvaluatedKey := LastEvaluatedKey data |}
  else None.

End WithValues.
Arguments Record_ : clear implicits.
Arguments QueryParams : clear implicits.
Arguments QueryCommandInput : clear implicits.
Arguments QueryCommandOutput : clear implicits.
Arguments QueryResult : clear implicits.
Arguments Client : clear implicits.

End Query.

(** ** The fixture writer: src/dynamo-db/put-item.ts *)

Module PutItem.

Section WithValues.
Context {V E : Type}.

(** The input of [PutCommand]. *)
Record PutCommandInput : Type :=
  { TableName : string; Item : gmap string V }.

(** The client resolves with an output that [putItem] does not read. *)
Definition Client : Type :=
  History PutCommandInput E -> PutCommandInput -> Reply unit E.

(** [putItem(tableName, item)]: one [PutCommand]; a rejection is logged
   with [console.error] and rethrown. *)
Definition putItem (docClient : Client) (tableName : string)
    (item : gmap string V)
  : Completion unit E * History PutCommandInput E :=
  let params := {| TableName := tableName; Item := item |} in
  match docClient [] params with
  | Resolves _ => (Returned tt, [EvSend params])
  | Rejects error =>
      (Thrown (StoreFailure error), [EvSend params; EvConsoleError error])
  end.

End WithValues.
Arguments PutCommandInput : clear implicits.
Arguments Client : clear implicits.

End PutItem.

(** ** Random identifiers: src/utils/generate-random-id.ts *)

Module RandomId.

(** [s.substring(0, end)] for an integer [end]: the end index is
   clamped to the range from 0 to [s.length]. *)
Definition substring_to (s : string) (end_ : Z) : string :=
  let clamped := Z.min (Z.max end_ 0) (Z.of_nat (String.length s)) in
  String.substring 0 (Z.to_nat clamped) s.

(** [generateRandomId(length = 36)].  [uuid] is what [randomUUID()]
   returns in this call; the result is the returned string, or the
   message of the [Error] thrown. *)
Definition generateRandomId (uuid : string) (length : option Z)
  : Completion string Empty_set :=
  let length := nullish length 36 in
  if 36 <? length
  then Thrown (JsError "max uuid v4 length is 36")
  else Returned (substring_to uuid length).

End RandomId.

(** ** The helpers built on [fetch]: src/utils/http-call.ts,
   src/utils/generate-access-token.ts and
   src/cognito/generate-user-access-token.ts *)

Module Http.

(** A value that can be thrown: an instance of [Error] (or of a
   subclass, [name] tells which), or anything else, of which only
   [String(value)] matters. *)
Inductive JsValue : Type :=
| ErrorInstance (name message : string)
| NonError (shown : string).

(** [new Error(message)] *)
Definition new_Error (message : string) : JsValue :=
  ErrorInstance "Error" message.

(** The [catch] block the three helpers share:
   [if (error instanceof Error) throw error;
    throw new Error(`Unknown error: ${String(error)}`)]. *)
Definition catch_block (error : JsValue) : JsValue :=
  match error with
  | ErrorInstance _ _ => error
  | NonError shown => new_Error ("Unknown error: " +:+ shown)
  end.

(** The second argument of [fetch]; [signal] is
   [AbortSignal.timeout(ms)]. *)
Record RequestInit : Type := {
  method : string;
  headers : gmap string string;
  body : option string;
  signal : Z
}.

(** The part of a [Response] the helpers use: [ok], [status], and how
   [text()] and [json()] settle; [T] is the type the helper casts the
   parsed body to. *)
Record Response (T : Type) : Type := {
  ok : bool;
  status : Z;
  text : Reply string JsValue;
  json : Reply T JsValue
}.
Arguments ok {T} _.
Arguments status {T} _.
Arguments text {T} _.
Arguments json {T} _.

Definition Fetch (T : Type) : Type :=
  string -> RequestInit -> Reply (Response T) JsValue.

(** A settled call: how the promise settled and the calls of [fetch]
   that were made. *)
Definition Settled (A : Type) : Type :=
  Reply A JsValue * list (string * RequestInit).

(** The statements after [await fetch(...)] inside the [try], the same
   in the three helpers up to the field read from the parsed body:
   [if (!response.ok) { const errorData = await response.text();
      throw new Error(`API Error: ${response.status} - ${errorData}`) }]
   and then the [return] of (a field of) [await response.json()].
   What is thrown here is caught by the [catch] block. *)
Definition after_fetch {T A : Type} (read : T -> A) (response : Response T)
  : Reply A JsValue :=
  if negb (ok response) then
    match text response with
    | Rejects error => Rejects (catch_block error)
    | Resolves errorData =>
        Rejects (catch_block
                   (new_Error ("API Error: " +:+ pretty (status response)
                               +:+ " - " +:+ errorData)))
    end
  else
    match json response with
    | Rejects error => Rejects (catch_block error)
    | Resolves data => Resolves (read data)
    end.

Section HttpCall.
Context {P T : Type}.
(** [JSON.stringify] on a payload, which throws on a circular one, and
   [String.prototype.toUpperCase]. *)
Variable JSON_stringify : P -> Reply string JsValue.
Variable toUpperCase : string -> string.

(** [httpCall(endpoint, resource, method, payload?, headers?)] *)
Definition httpCall (fetch : Fetch T) (endpoint resource method : string)
    (payload : option P) (headers : option (gmap string string))
  : Settled T :=
  let url := endpoint +:+ resource in
  let method := toUpperCase method in
  let headers :=
    spread2 {[ "Content-Type"%string := "application/json"%string ]}
      (nullish headers ∅) in
  let stringified :=
    match payload with
    | Some payload =>
        match JSON_stringify payload with
        | Resolves text => Resolves (Some text)
        | Rejects error => Rejects error
        end
    | None => Resolves None
    end in
  match stringified with
  | Rejects error => (Rejects (catch_block error), [])
  | Resolves body =>
      let init := {| method := method; headers := headers;
                     body := body; signal := 10000 |} in
      match fetch url init with
      | Rejects error => (Rejects (catch_block error), [(url, init)])
      | Resolves response => (after_fetch id response, [(url, init)])
      end
  end.

End HttpCall.

(** [{ access_token: string }] *)
Record TokenBody : Type := { access_token : string }.

Section GenerateAccessToken.
(** [Buffer.from(s).toString('base64')] and
   [URLSearchParams.prototype.toString] on the list of entries. *)
Variable base64 : string -> string.
Variable URLSearchParams_toString : list (string * string) -> string.

(** [...(scopes.length && { scope: scopes.join(' ') })]: the length 0
   is the value of the [&&] and spreads to nothing. *)
Definition scope_spread (scopes : list string) : list (string * string) :=
  if (0 <? Z.of_nat (length scopes))
  then [("scope"%string, String.concat " " scopes)]
  else [].

(** [generateAccessToken(url, clientId, clientSecret, scopes = [])] *)
Definition generateAccessToken (fetch : Fetch TokenBody)
    (url clientId clientSecret : string) (scopes : option (list string))
  : Settled string :=
  let scopes := nullish scopes [] in
  let payload :=
    ("grant_type"%string, "client_credentials"%string) :: scope_spread scopes in
  let credentials := base64 (clientId +:+ ":" +:+ clientSecret) in
  let target := url +:+ "/oauth2/token" in
  let init :=
    {| method := "POST";
       headers :=
         <[ "Authorization"%string := "Basic " +:+ credentials ]>
           {[ "Content-Type"%string :=
                "application/x-www-form-urlencoded"%string ]};
       body := Some (URLSearchParams_toString payload);
       signal := 10000 |} in
  match fetch target init with
  | Rejects error => (Rejects (catch_block error), [(target, init)])
  | Resolves response => (after_fetch access_token response, [(target, init)])
  end.

End GenerateAccessToken.

(** [interface UserAccessTokenParams] *)
Record UserAccessTokenParams : Type := {
  email : string;
  password : string;
  clientId : option string;
  region : option string
}.

(** The object given to [JSON.stringify] as the body of [InitiateAuth]. *)
Record InitiateAuth : Type := {
  AuthFlow : string;
  ClientId : string;
  USERNAME : string;
  PASSWORD : string
}.

(** [{ AuthenticationResult: { AccessToken: string } }] *)
Record AuthenticationResult_ : Type := { AccessToken : string }.
Record InitiateAuthBody : Type :=
  { AuthenticationResult : AuthenticationResult_ }.

(** [a ?? b] where [b] may be [undefined] too. *)
Definition nullish_or {A : Type} (a b : option A) : option A :=
  match a with
  | Some v => Some v
  | None => b
  end.

Section GenerateUserAccessToken.
(** [JSON.stringify] on the request object, which holds strings only. *)
Variable JSON_stringify : InitiateAuth -> string.

(** [generateUserAccessToken(params)]; [env] is [process.env]. *)
Definition generateUserAccessToken (env : gmap string string)
    (fetch : Fetch InitiateAuthBody) (params : UserAccessTokenParams)
  : Settled string :=
  let region := nullish_or (region params) (env !! "AWS_REGION"%string) in
  let clientId :=
    nullish_or (clientId params) (env !! "USER_POOL_CLIENT_ID"%string) in
  if negb (truthy_string region) then
    (Rejects (new_Error
                "region is required — pass it explicitly or set AWS_REGION"),
     [])
  else if negb (truthy_string clientId) then
    (Rejects (new_Error
                "clientId is required — pass it explicitly or set USER_POOL_CLIENT_ID"),
     [])
  else
    let target :=
      "https://cognito-idp." +:+ nullish region "" +:+ ".amazonaws.com/" in
    let init :=
      {| method := "POST";
         headers :=
           <[ "X-Amz-Target"%string :=
                "AWSCognitoIdentityProviderService.InitiateAuth"%string ]>
             {[ "Content-Type"%string :=
                  "application/x-amz-json-1.1"%string ]};
         body :=
           Some (JSON_stringify
                   {| AuthFlow := "USER_PASSWORD_AUTH";
                      ClientId := nullish clientId "";
                      USERNAME := email params;
                      PASSWORD := password params |});
         signal := 10000 |} in
    match fetch target init with
    | Rejects error => (Rejects (catch_block error), [(target, init)])
    | Resolves response =>
        (after_fetch (fun data => AccessToken (AuthenticationResult data))
           response,
         [(target, init)])
    end.

End GenerateUserAccessToken.

End Http.

(** ** Facts about the unrolled loop *)

Section UnrolledFacts.
Context {Req Resp A E : Type}.
Variable client : History Req E -> Req -> Reply Resp E.
Variable params : Req.
Variable accept : Resp -> option A.
Variable seconds : Z.
Variable message : string.

Local Abbreviation loop := (unrolled client params accept seconds message).
Local Abbreviation rounds := (@failed_rounds Req E params seconds).
Local Abbreviation fails := (round_fails client params accept).

(** [k] iterations that find nothing leave the loop where it was, [k]
   rounds later. *)
Lemma unrolled_rounds (k n : nat) (h : History Req E) :
  (forall j, (j < k)%nat -> fails (h ++ rounds j)) ->
  loop (k + n)%nat h = loop n (h ++ rounds k).
Proof.
  revert n. induction k as [|k IH]; intros n Hfail.
  - cbn [failed_rounds]. now rewrite app_nil_r.
  - replace (S k + n)%nat with (k + S n)%nat by lia.
    rewrite IH by (intros j Hj; apply Hfail; lia).
    destruct (Hfail k ltac:(lia)) as (response & Hsend & Hnone).
    cbn [unrolled failed_rounds]. rewrite Hsend, Hnone.
    now rewrite app_assoc.
Qed.

(** The loop only ever adds to the history, and every command it adds
   is [params]. *)
Lemma unrolled_extends (n : nat) (h : History Req E) :
  exists t, snd (loop n h) = h ++ t
            /\ (forall c, In c (sends t) -> c = params)
            /\ (forall s, In s (delays t) -> s = seconds).
Proof.
  revert h. induction n as [|n IH]; intros h; cbn [unrolled].
  - exists []. rewrite app_nil_r. repeat split; intros ? [].
  - destruct (client h params) as [response|error].
    + destruct (accept response) as [value|].
      * exists [EvSend params]. repeat split; cbn; intuition congruence.
      * destruct (IH (h ++ [EvSend params; EvDelay seconds]))
          as (t & Ht & Hs & Hd).
        exists ([EvSend params; EvDelay seconds] ++ t).
        rewrite Ht, <- app_assoc. split; [reflexivity|].
        rewrite sends_app, delays_app. cbn.
        split; intros ? [<-|?]; auto.
    + exists [EvSend params; EvConsoleError error].
      repeat split; cbn; intuition congruence.
Qed.

(** An iteration that finds nothing is never the last effect of a run. *)
Lemma unrolled_not_found_continues (n : nat) (h : History Req E) :
  fails h -> snd (loop (S n) h) <> h ++ [EvSend params].
Proof.
  intros (response & Hsend & Hnone) Heq.
  cbn [unrolled] in Heq. rewrite Hsend, Hnone in Heq.
  destruct (unrolled_extends n (h ++ [EvSend params; EvDelay seconds]))
    as (t & Ht & _).
  rewrite Ht, <- app_assoc in Heq.
  apply app_inv_head in Heq. discriminate.
Qed.

End UnrolledFacts.

(** ** Each poller's loop is the unrolled loop *)

Lemma remaining_zero (maxIterations iteration : Z) :
  (iteration <=? maxIterations) = false ->
  Z.to_nat (maxIterations + 1 - iteration) = O.
Proof. intros H. apply Z.leb_gt in H. lia. Qed.

Lemma remaining_succ (maxIterations iteration : Z) :
  (iteration <=? maxIterations) = true ->
  Z.to_nat (maxIterations + 1 - iteration)
  = S (Z.to_nat (maxIterations + 1 - (iteration + 1))).
Proof. intros H. apply Z.leb_le in H. lia. Qed.

(** Rewrites with what the case analysis of a loop body has recorded
   about the reply and its content. *)
Ltac use_reply :=
  repeat match goal with
    | H : ?client ?h ?params = Resolves _ |- _ => rewrite H; clear H
    | H : ?client ?h ?params = Rejects _ |- _ => rewrite H; clear H
    | H : GetItem.Item _ = _ |- _ => rewrite H; clear H
    | H : Query.page_found _ = _ |- _ => rewrite H; clear H
    end.

Lemma getItem_loop_unrolled {V E : Type} (docClient : GetItem.Client V E)
    (params : GetItem.GetCommandInput) (maxIterations delayInSeconds : Z)
    (iteration : Z) (h : History GetItem.GetCommandInput E) :
  GetItem.getItem_loop docClient params maxIterations delayInSeconds iteration h
  = unrolled docClient params GetItem.Item delayInSeconds "record not found"
      (Z.to_nat (maxIterations + 1 - iteration)) h.
Proof.
  funelim (GetItem.getItem_loop docClient params maxIterations delayInSeconds
             iteration h).
  - now rewrite remaining_zero.
  - rewrite (remaining_succ _ _ Hle); cbn [unrolled]. now use_reply.
  - rewrite (remaining_succ _ _ Hle); cbn [unrolled]. now use_reply.
  - rewrite (remaining_succ _ _ Hle); cbn [unrolled]. use_reply.
    match goal with IH : GetItem.getItem_loop _ _ _ _ _ _ = unrolled _ _ _ _ _ _ _ |- _ => exact IH end.
Qed.

Lemma query_loop_unrolled {V E : Type} (dynamoDb : Query.Client V E)
    (baseParams : Query.QueryCommandInput V) (maxIterations delayInSeconds : Z)
    (iteration : Z) (h : History (Query.QueryCommandInput V) E) :
  Query.query_loop dynamoDb baseParams maxIterations delayInSeconds iteration h
  = unrolled dynamoDb baseParams Query.accept delayInSeconds
      "query returned no results after max retries"
      (Z.to_nat (maxIterations + 1 - iteration)) h.
Proof.
  funelim (Query.query_loop dynamoDb baseParams maxIterations delayInSeconds
             iteration h).
  - now rewrite remaining_zero.
  - rewrite (remaining_succ _ _ Hle); cbn [unrolled]. now use_reply.
  - rewrite (remaining_succ _ _ Hle); cbn [unrolled]. unfold Query.accept.
    now use_reply.
  - rewrite (remaining_succ _ _ Hle); cbn [unrolled]. unfold Query.accept.
    use_reply.
    match goal with IH : Query.query_loop _ _ _ _ _ _ = unrolled _ _ _ _ _ _ _ |- _ => exact IH end.
Qed.

(** ** Runs of the unrolled loop from the empty history *)

Section UnrolledRuns.
Context {Req Resp A E : Type}.
Variable client : History Req E -> Req -> Reply Resp E.
Variable params : Req.
Variable accept : Resp -> option A.
Variable seconds : Z.
Variable message : string.

Local Abbreviation loop := (unrolled client params accept seconds message).
Local Abbreviation rounds := (@failed_rounds Req E params seconds).
Local Abbreviation fails := (round_fails client params accept).

Lemma unrolled_exhausted (n : nat) :
  (forall j, (j < n)%nat -> fails (rounds j)) ->
  loop n [] = (Thrown (JsError message), rounds n).
Proof.
  intros Hfail.
  replace n with (n + 0)%nat at 1 by lia.
  now rewrite unrolled_rounds.
Qed.

Lemma unrolled_found (n k : nat) (response : Resp) (value : A) :
  (k < n)%nat ->
  (forall j, (j < k)%nat -> fails (rounds j)) ->
  client (rounds k) params = Resolves response ->
  accept response = Some value ->
  loop n [] = (Returned value, rounds k ++ [EvSend params]).
Proof.
  intros Hk Hfail Hsend Hsome.
  replace n with (k + S (n - S k))%nat by lia.
  rewrite unrolled_rounds by exact Hfail.
  cbn [unrolled app]. now rewrite Hsend, Hsome.
Qed.

Lemma unrolled_rejected (n k : nat) (error : E) :
  (k < n)%nat ->
  (forall j, (j < k)%nat -> fails (rounds j)) ->
  client (rounds k) params = Rejects error ->
  loop n []
  = (Thrown (StoreFailure error),
     rounds k ++ [EvSend params; EvConsoleError error]).
Proof.
  intros Hk Hfail Hsend.
  replace n with (k + S (n - S k))%nat by lia.
  rewrite unrolled_rounds by exact Hfail.
  cbn [unrolled app]. now rewrite Hsend.
Qed.

Lemma unrolled_sends (n : nat) :
  Forall (fun c => c = params) (sends (snd (loop n []))).
Proof.
  destruct (unrolled_extends client params accept seconds message n [])
    as (t & Ht & Hs & _).
  rewrite Ht. cbn [app]. apply List.Forall_forall. exact Hs.
Qed.

Lemma unrolled_delays (n : nat) :
  Forall (fun s => s = seconds) (delays (snd (loop n []))).
Proof.
  destruct (unrolled_extends client params accept seconds message n [])
    as (t & Ht & _ & Hd).
  rewrite Ht. cbn [app]. apply List.Forall_forall. exact Hd.
Qed.

Lemma sends_found (k : nat) :
  sends (rounds k ++ [EvSend params]) = replicate (S k) params.
Proof.
  rewrite sends_app, sends_failed_rounds. apply replicate_snoc.
Qed.

Lemma delays_found (k : nat) :
  delays (rounds k ++ [EvSend params]) = replicate k seconds.
Proof.
  rewrite delays_app, delays_failed_rounds. apply app_nil_r.
Qed.

Lemma sends_rejected (k : nat) (error : E) :
  sends (rounds k ++ [EvSend params; EvConsoleError error])
  = replicate (S k) params.
Proof.
  rewrite sends_app, sends_failed_rounds. apply replicate_snoc.
Qed.

Lemma delays_rejected (k : nat) (error : E) :
  delays (rounds k ++ [EvSend params; EvConsoleError error])
  = replicate k seconds.
Proof.
  rewrite delays_app, delays_failed_rounds. apply app_nil_r.
Qed.

End UnrolledRuns.

(** ** The two pollers as runs of the unrolled loop *)

Lemma getItem_unrolled {V E : Type} (docClient : GetItem.Client V E)
    (keys : GetItem.KeySchema) (tableName : string)
    (maxIterations delayInSeconds : option Z) :
  GetItem.getItem docClient keys tableName maxIterations delayInSeconds
  = unrolled docClient (GetItem.getItem_params keys tableName) GetItem.Item
      (nullish delayInSeconds 2) "record not found"
      (Z.to_nat (nullish maxIterations 10)) [].
Proof.
  unfold GetItem.getItem. cbv zeta. rewrite getItem_loop_unrolled.
  f_equal. lia.
Qed.

Lemma query_unrolled {V E : Type} (dynamoDb : Query.Client V E)
    (p : Query.QueryParams V) :
  Query.query dynamoDb p
  = unrolled dynamoDb (Query.query_params p) Query.accept
      (nullish (Query.delayInSeconds p) 2)
      "query returned no results after max retries"
      (Z.to_nat (nullish (Query.maxIterations p) 10)) [].
Proof.
  unfold Query.query. cbv zeta. rewrite query_loop_unrolled.
  f_equal. lia.
Qed.

(** What the collection poller accepts. *)
Lemma page_found_iff {V : Type} (data : Query.QueryCommandOutput V) :
  Query.page_found data = true
  <-> Query.page_items data <> [] \/ Query.LastEvaluatedKey data <> None.
Proof.
  unfold Query.page_found. rewrite orb_true_iff, Z.ltb_lt.
  destruct (Query.page_items data) as [|item rest];
    destruct (Query.LastEvaluatedKey data) as [token|]; cbn;
    intuition (try congruence; try lia).
Qed.

Lemma accept_none {V : Type} (data : Query.QueryCommandOutput V) :
  Query.page_items data = [] ->
  Query.LastEvaluatedKey data = None ->
  Query.accept data = None.
Proof.
  intros Hitems Htoken. unfold Query.accept, Query.page_found.
  now rewrite Hitems, Htoken.
Qed.

Lemma accept_some {V : Type} (data : Query.QueryCommandOutput V) :
  Query.page_items data <> [] \/ Query.LastEvaluatedKey data <> None ->
  Query.accept data
  = Some {| Query.items := Query.page_items data;
            Query.resultLastEvaluatedKey := Query.LastEvaluatedKey data |}.
Proof.
  intros H. apply page_found_iff in H. unfold Query.accept. now rewrite H.
Qed.

(** ** Retry behaviour of the two pollers *)

(** An attempt of [getItem] in history [h] that does not throw and whose
   response has no [Item]. *)
Definition getItem_finds_nothing {V E : Type} (docClient : GetItem.Client V E)
    (params : GetItem.GetCommandInput)
    (h : History GetItem.GetCommandInput E) : Prop :=
  exists response,
    docClient h params = Resolves response /\ GetItem.Item response = None.

(** An attempt of [query] in history [h] that does not throw and whose
   response has zero items and no [LastEvaluatedKey]. *)
Definition query_finds_nothing {V E : Type} (dynamoDb : Query.Client V E)
    (baseParams : Query.QueryCommandInput V)
    (h : History (Query.QueryCommandInput V) E) : Prop :=
  exists data,
    dynamoDb h baseParams = Resolves data
    /\ Query.page_items data = [] /\ Query.LastEvaluatedKey data = None.

Lemma getItem_finds_nothing_fails {V E : Type} (docClient : GetItem.Client V E)
    params h :
  getItem_finds_nothing docClient params h ->
  round_fails docClient params GetItem.Item h.
Proof. intros (response & Hsend & Hnone). now exists response. Qed.

Lemma query_finds_nothing_fails {V E : Type} (dynamoDb : Query.Client V E)
    baseParams h :
  query_finds_nothing dynamoDb baseParams h ->
  round_fails dynamoDb baseParams Query.accept h.
Proof.
  intros (data & Hsend & Hitems & Htoken). exists data.
  split; [exact Hsend | now apply accept_none].
Qed.

Create HintDb pollers.
#[local] Hint Resolve getItem_finds_nothing_fails query_finds_nothing_fails
  : pollers.

Ltac count_effects :=
  rewrite ?sends_failed_rounds, ?delays_failed_rounds, ?sends_found,
    ?delays_found, ?sends_rejected, ?delays_rejected, ?length_replicate.

(** C1. When every attempt finds nothing and none throws, a poller with
   a budget of [N >= 1] attempts sends exactly [N] commands, pauses
   exactly [N] times, each time for the configured number of seconds,
   and then throws its own not-found error.  The history is [N] rounds
   of one command followed by one pause. *)
Theorem exhausted_budget_not_found {V E : Type} :
  (forall (docClient : GetItem.Client V E) keys tableName
          maxIterations delayInSeconds,
      let N := nullish maxIterations 10 in
      let d := nullish delayInSeconds 2 in
      let params := GetItem.getItem_params keys tableName in
      let run :=
        GetItem.getItem docClient keys tableName maxIterations delayInSeconds in
      1 <= N ->
      (forall j, (j < Z.to_nat N)%nat ->
         getItem_finds_nothing docClient params (failed_rounds params d j)) ->
      fst run = Thrown (JsError "record not found")
      /\ snd run = failed_rounds params d (Z.to_nat N)
      /\ Z.of_nat (length (sends (snd run))) = N
      /\ Z.of_nat (length (delays (snd run))) = N
      /\ delays (snd run) = replicate (Z.to_nat N) d)
  /\
  (forall (dynamoDb : Query.Client V E) (p : Query.QueryParams V),
      let N := nullish (Query.maxIterations p) 10 in
      let d := nullish (Query.delayInSeconds p) 2 in
      let baseParams := Query.query_params p in
      let run := Query.query dynamoDb p in
      1 <= N ->
      (forall j, (j < Z.to_nat N)%nat ->
         query_finds_nothing dynamoDb baseParams (failed_rounds baseParams d j)) ->
      fst run = Thrown (JsError "query returned no results after max retries")
      /\ snd run = failed_rounds baseParams d (Z.to_nat N)
      /\ Z.of_nat (length (sends (snd run))) = N
      /\ Z.of_nat (length (delays (snd run))) = N
      /\ delays (snd run) = replicate (Z.to_nat N) d).
Proof.
  split.
  - intros docClient keys tableName maxIterations delayInSeconds
      N d params run HN Hfail.
    subst run. rewrite getItem_unrolled.
    rewrite unrolled_exhausted by auto with pollers.
    cbn [fst snd]. fold N d params. count_effects.
    repeat split; try reflexivity; lia.
  - intros dynamoDb p N d baseParams run HN Hfail.
    subst run. rewrite query_unrolled.
    rewrite unrolled_exhausted by auto with pollers.
    cbn [fst snd]. fold N d baseParams. count_effects.
    repeat split; try reflexivity; lia.
Qed.

(** C2. When attempt [K <= maxIterations] is the first that finds
   something, the poller returns what that attempt found (the item; the
   items and the [LastEvaluatedKey]), having sent exactly [K] commands
   and paused exactly [K - 1] times; the command of attempt [K] is the
   last effect of the run. *)
Theorem first_success_returns {V E : Type} :
  (forall (docClient : GetItem.Client V E) keys tableName
          maxIterations delayInSeconds (K : nat) response item,
      let N := nullish maxIterations 10 in
      let d := nullish delayInSeconds 2 in
      let params := GetItem.getItem_params keys tableName in
      let run :=
        GetItem.getItem docClient keys tableName maxIterations delayInSeconds in
      (1 <= K)%nat -> Z.of_nat K <= N ->
      (forall j, (j < K - 1)%nat ->
         getItem_finds_nothing docClient params (failed_rounds params d j)) ->
      docClient (failed_rounds params d (K - 1)) params = Resolves response ->
      GetItem.Item response = Some item ->
      fst run = Returned item
      /\ snd run = failed_rounds params d (K - 1) ++ [EvSend params]
      /\ length (sends (snd run)) = K
      /\ length (delays (snd run)) = (K - 1)%nat
      /\ delays (snd run) = replicate (K - 1) d)
  /\
  (forall (dynamoDb : Query.Client V E) (p : Query.QueryParams V)
          (K : nat) data,
      let N := nullish (Query.maxIterations p) 10 in
      let d := nullish (Query.delayInSeconds p) 2 in
      let baseParams := Query.query_params p in
      let run := Query.query dynamoDb p in
      (1 <= K)%nat -> Z.of_nat K <= N ->
      (forall j, (j < K - 1)%nat ->
         query_finds_nothing dynamoDb baseParams (failed_rounds baseParams d j)) ->
      dynamoDb (failed_rounds baseParams d (K - 1)) baseParams = Resolves data ->
      Query.page_items data <> [] \/ Query.LastEvaluatedKey data <> None ->
      fst run
      = Returned {| Query.items := Query.page_items data;
                    Query.resultLastEvaluatedKey := Query.LastEvaluatedKey data |}
      /\ snd run = failed_rounds baseParams d (K - 1) ++ [EvSend baseParams]
      /\ length (sends (snd run)) = K
      /\ length (delays (snd run)) = (K - 1)%nat
      /\ delays (snd run) = replicate (K - 1) d).
Proof.
  split.
  - intros docClient keys tableName maxIterations delayInSeconds K
      response item N d params run HK HKN Hfail Hsend Hitem.
    subst run. rewrite getItem_unrolled.
    rewrite (unrolled_found _ _ _ _ _ _ (K - 1) response item)
      by (fold N; auto with pollers; lia).
    cbn [fst snd]. fold d params. count_effects.
    repeat split; try reflexivity; lia.
  - intros dynamoDb p K data N d baseParams run HK HKN Hfail Hsend Hfound.
    subst run. rewrite query_unrolled.
    rewrite (unrolled_found _ _ _ _ _ _ (K - 1) data _)
      by (fold N; auto using accept_some with pollers; lia).
    cbn [fst snd]. fold d baseParams. count_effects.
    repeat split; try reflexivity; lia.
Qed.

(** C4. When the store call of attempt [K <= maxIterations] throws, the
   poller rethrows that very error: the command of attempt [K] is
   followed by the [console.error] only, so there is no pause after it
   and no attempt [K + 1], and what is thrown is not the poller's own
   not-found error. *)
Theorem store_error_rethrown {V E : Type} :
  (forall (docClient : GetItem.Client V E) keys tableName
          maxIterations delayInSeconds (K : nat) error,
      let N := nullish maxIterations 10 in
      let d := nullish delayInSeconds 2 in
      let params := GetItem.getItem_params keys tableName in
      let run :=
        GetItem.getItem docClient keys tableName maxIterations delayInSeconds in
      (1 <= K)%nat -> Z.of_nat K <= N ->
      (forall j, (j < K - 1)%nat ->
         getItem_finds_nothing docClient params (failed_rounds params d j)) ->
      docClient (failed_rounds params d (K - 1)) params = Rejects error ->
      fst run = Thrown (StoreFailure error)
      /\ fst run <> Thrown (JsError "record not found")
      /\ snd run
         = failed_rounds params d (K - 1)
             ++ [EvSend params; EvConsoleError error]
      /\ length (sends (snd run)) = K
      /\ length (delays (snd run)) = (K - 1)%nat)
  /\
  (forall (dynamoDb : Query.Client V E) (p : Query.QueryParams V)
          (K : nat) error,
      let N := nullish (Query.maxIterations p) 10 in
      let d := nullish (Query.delayInSeconds p) 2 in
      let baseParams := Query.query_params p in
      let run := Query.query dynamoDb p in
      (1 <= K)%nat -> Z.of_nat K <= N ->
      (forall j, (j < K - 1)%nat ->
         query_finds_nothing dynamoDb baseParams (failed_rounds baseParams d j)) ->
      dynamoDb (failed_rounds baseParams d (K - 1)) baseParams = Rejects error ->
      fst run = Thrown (StoreFailure error)
      /\ fst run
         <> Thrown (JsError "query returned no results after max retries")
      /\ snd run
         = failed_rounds baseParams d (K - 1)
             ++ [EvSend baseParams; EvConsoleError error]
      /\ length (sends (snd run)) = K
      /\ length (delays (snd run)) = (K - 1)%nat).
Proof.
  split.
  - intros docClient keys tableName maxIterations delayInSeconds K
      error N d params run HK HKN Hfail Hsend.
    subst run. rewrite getItem_unrolled.
    rewrite (unrolled_rejected _ _ _ _ _ _ (K - 1) error)
      by (fold N; auto with pollers; lia).
    cbn [fst snd]. fold d params. count_effects.
    repeat split; try reflexivity; try lia. discriminate.
  - intros dynamoDb p K error N d baseParams run HK HKN Hfail Hsend.
    subst run. rewrite query_unrolled.
    rewrite (unrolled_rejected _ _ _ _ _ _ (K - 1) error)
      by (fold N; auto with pollers; lia).
    cbn [fst snd]. fold d baseParams. count_effects.
    repeat split; try reflexivity; try lia. discriminate.
Qed.

(** C3. An attempt of the collection poller that gets a page returns
   at once, with the items of that page (none when the store sent no
   [Items]) and its [LastEvaluatedKey], exactly when the store's page
   has at least one item or carries a [LastEvaluatedKey]; a page with
   neither makes the poller pause and try again.  So a first page with
   zero items and a [LastEvaluatedKey] is returned as it is after a
   single command.  An attempt of the single-record poller returns at
   once exactly when the response has an [Item]. *)
Theorem success_criteria {V E : Type} :
  (forall (dynamoDb : Query.Client V E) baseParams maxIterations
          delayInSeconds iteration h data,
      iteration <= maxIterations ->
      dynamoDb h baseParams = Resolves data ->
      Query.query_loop dynamoDb baseParams maxIterations delayInSeconds
        iteration h
      = (Returned {| Query.items := default [] (Query.Items data);
                     Query.resultLastEvaluatedKey :=
                       Query.LastEvaluatedKey data |},
         h ++ [EvSend baseParams])
      <-> (exists items,
              Query.Items data = Some items /\ (1 <= length items)%nat)
          \/ (exists token, Query.LastEvaluatedKey data = Some token))
  /\
  (forall (dynamoDb : Query.Client V E) baseParams maxIterations
          delayInSeconds iteration h data,
      iteration <= maxIterations ->
      dynamoDb h baseParams = Resolves data ->
      Query.Items data = None \/ Query.Items data = Some [] ->
      Query.LastEvaluatedKey data = None ->
      Query.query_loop dynamoDb baseParams maxIterations delayInSeconds
        iteration h
      = Query.query_loop dynamoDb baseParams maxIterations delayInSeconds
          (iteration + 1)
          (h ++ [EvSend baseParams; EvDelay delayInSeconds]))
  /\
  (forall (dynamoDb : Query.Client V E) (p : Query.QueryParams V) data token,
      1 <= nullish (Query.maxIterations p) 10 ->
      dynamoDb [] (Query.query_params p) = Resolves data ->
      Query.Items data = None \/ Query.Items data = Some [] ->
      Query.LastEvaluatedKey data = Some token ->
      Query.query dynamoDb p
      = (Returned {| Query.items := [];
                     Query.resultLastEvaluatedKey := Some token |},
         [EvSend (Query.query_params p)]))
  /\
  (forall (docClient : GetItem.Client V E) params maxIterations
          delayInSeconds iteration h response,
      iteration <= maxIterations ->
      docClient h params = Resolves response ->
      (exists item,
          GetItem.getItem_loop docClient params maxIterations delayInSeconds
            iteration h
          = (Returned item, h ++ [EvSend params]))
      <-> exists item, GetItem.Item response = Some item).
Proof.
  assert (Hitems : forall data : Query.QueryCommandOutput V,
             Query.page_items data = default [] (Query.Items data)).
  { intros data. unfold Query.page_items, nullish.
    now destruct (Query.Items data). }
  assert (Hempty : forall data : Query.QueryCommandOutput V,
             Query.Items data = None \/ Query.Items data = Some [] ->
             Query.page_items data = []).
  { intros data [Hnone|Hnil]; rewrite Hitems; [rewrite Hnone|rewrite Hnil];
      reflexivity. }
  split; [|split; [|split]].
  - intros dynamoDb baseParams maxIterations delayInSeconds iteration h data
      Hle Hsend.
    rewrite query_loop_unrolled.
    rewrite (remaining_succ maxIterations iteration) by now apply Z.leb_le.
    assert (Hcriterion :
      Query.page_found data = true
      <-> (exists items,
              Query.Items data = Some items /\ (1 <= length items)%nat)
          \/ (exists token, Query.LastEvaluatedKey data = Some token)).
    { rewrite page_found_iff, Hitems. split.
      - intros [Hsome|Htoken].
        + left. destruct (Query.Items data) as [[|first rest]|];
            cbn in Hsome; try congruence.
          exists (first :: rest). split; [reflexivity|cbn; lia].
        + right. destruct (Query.LastEvaluatedKey data) as [token|];
            [now exists token|congruence].
      - intros [(items & Hsome & Hlen)|(token & Htoken)].
        + left. rewrite Hsome. destruct items; cbn in *; [lia|discriminate].
        + right. rewrite Htoken. discriminate. }
    rewrite <- Hcriterion, <- Hitems. split.
    + intros Hrun. destruct (Query.page_found data) eqn:Hfound; [reflexivity|].
      exfalso. apply (f_equal snd) in Hrun. cbn [snd] in Hrun.
      revert Hrun. apply unrolled_not_found_continues.
      exists data. split; [exact Hsend|].
      unfold Query.accept. now rewrite Hfound.
    + intros Hfound. cbn [unrolled]. rewrite Hsend.
      unfold Query.accept. now rewrite Hfound.
  - intros dynamoDb baseParams maxIterations delayInSeconds iteration h data
      Hle Hsend Hnone Htoken.
    rewrite !query_loop_unrolled.
    rewrite (remaining_succ maxIterations iteration) by now apply Z.leb_le.
    cbn [unrolled]. rewrite Hsend.
    now rewrite (accept_none data (Hempty data Hnone) Htoken).
  - intros dynamoDb p data token HN Hsend Hnone Htoken.
    rewrite query_unrolled.
    rewrite (unrolled_found _ _ _ _ _ _ 0 data
               {| Query.items := []; Query.resultLastEvaluatedKey := Some token |}).
    + reflexivity.
    + lia.
    + intros j Hj. lia.
    + exact Hsend.
    + rewrite accept_some by (right; congruence).
      now rewrite (Hempty data Hnone), Htoken.
  - intros docClient params maxIterations delayInSeconds iteration h response
      Hle Hsend.
    rewrite getItem_loop_unrolled.
    rewrite (remaining_succ maxIterations iteration) by now apply Z.leb_le.
    split.
    + intros (item & Hrun).
      destruct (GetItem.Item response) as [found|] eqn:Hitem;
        [now exists found|].
      exfalso. apply (f_equal snd) in Hrun. cbn [snd] in Hrun.
      revert Hrun. apply unrolled_not_found_continues.
      now exists response.
    + intros (item & Hitem). exists item.
      cbn [unrolled]. now rewrite Hsend, Hitem.
Qed.

(** C10. Every command that a call of [query] sends is the one request
   built before the loop: the same key condition, values, index, limit,
   consistency flag, sort order and [ExclusiveStartKey] on every
   attempt, whatever the store answers. *)
Theorem same_request_every_attempt {V E : Type}
    (dynamoDb : Query.Client V E) (p : Query.QueryParams V) :
  Forall (fun command => command = Query.query_params p)
    (sends (snd (Query.query dynamoDb p)))
  /\ Forall (fun command =>
               Query.ExclusiveStartKey command = Query.lastEvaluatedKey p)
       (sends (snd (Query.query dynamoDb p))).
Proof.
  assert (Hall : Forall (fun command => command = Query.query_params p)
                   (sends (snd (Query.query dynamoDb p)))).
  { rewrite query_unrolled. apply unrolled_sends. }
  split; [exact Hall|].
  eapply List.Forall_impl; [|exact Hall].
  intros command ->. unfold Query.query_params. cbv zeta.
  destruct (truthy_object _), (truthy_string _); try reflexivity.
  all: destruct (Query.filterAttributeValues p); reflexivity.
Qed.

(** ** The requests the pollers build *)

Lemma getItem_sends {V E : Type} (docClient : GetItem.Client V E)
    keys tableName maxIterations delayInSeconds :
  Forall (fun command => command = GetItem.getItem_params keys tableName)
    (sends (snd (GetItem.getItem docClient keys tableName
                   maxIterations delayInSeconds))).
Proof. rewrite getItem_unrolled. apply unrolled_sends. Qed.

Lemma query_sends {V E : Type} (dynamoDb : Query.Client V E)
    (p : Query.QueryParams V) :
  Forall (fun command => command = Query.query_params p)
    (sends (snd (Query.query dynamoDb p))).
Proof. rewrite query_unrolled. apply unrolled_sends. Qed.

Lemma truthy_nonempty (s : string) :
  s <> ""%string -> truthy_string (Some s) = true.
Proof.
  intros Hs. cbn. destruct (String.eqb_spec s ""); [contradiction|reflexivity].
Qed.

(** C5, as the code has it.  Without a sort id the [Key] of the lookup
   has the [pk] field only; with a sort id that is not the empty string
   it has [pk] and [sk], both with the caller's values.  Every command
   of a call carries that [Key]. *)
Theorem getItem_key_fields {V E : Type} (docClient : GetItem.Client V E)
    (keys : GetItem.KeySchema) (tableName : string)
    (maxIterations delayInSeconds : option Z) :
  let params := GetItem.getItem_params keys tableName in
  (GetItem.sk keys = None ->
     GetItem.Key params = {[ "pk"%string := GetItem.pk keys ]}
     /\ GetItem.Key params !! "sk"%string = None)
  /\ (forall s, GetItem.sk keys = Some s -> s <> ""%string ->
        GetItem.Key params
        = <[ "sk"%string := s ]> {[ "pk"%string := GetItem.pk keys ]}
        /\ GetItem.Key params !! "pk"%string = Some (GetItem.pk keys)
        /\ GetItem.Key params !! "sk"%string = Some s)
  /\ Forall (fun command => command = params)
       (sends (snd (GetItem.getItem docClient keys tableName
                      maxIterations delayInSeconds))).
Proof.
  intros params. subst params.
  unfold GetItem.getItem_params, GetItem.sk_spread, spread2.
  cbn [GetItem.Key]. split; [|split].
  - intros ->. rewrite (left_id_L ∅ (∪)). split; [reflexivity|].
    now apply lookup_singleton_ne.
  - intros s -> Hs. rewrite (truthy_nonempty s Hs).
    rewrite <- insert_union_singleton_l.
    split; [reflexivity|]. split.
    + rewrite lookup_insert_ne by discriminate. apply lookup_singleton_eq.
    + apply lookup_insert_eq.
  - apply getItem_sends.
Qed.

(** C8. A sort id that is the empty string is left out of the lookup
   just as an absent one is: the request is the very request built
   without a sort id, its [Key] has the [pk] field only, and no command
   of the call carries an [sk] field. *)
Theorem empty_sort_key_omitted {V E : Type} (docClient : GetItem.Client V E)
    (partition tableName : string) (maxIterations delayInSeconds : option Z) :
  let keys := {| GetItem.pk := partition; GetItem.sk := Some ""%string |} in
  let absent := {| GetItem.pk := partition; GetItem.sk := None |} in
  GetItem.getItem_params keys tableName = GetItem.getItem_params absent tableName
  /\ GetItem.Key (GetItem.getItem_params keys tableName)
     = {[ "pk"%string := partition ]}
  /\ Forall (fun command => GetItem.Key command !! "sk"%string = None)
       (sends (snd (GetItem.getItem docClient keys tableName
                      maxIterations delayInSeconds))).
Proof.
  intros keys absent.
  assert (Hkey : GetItem.Key (GetItem.getItem_params keys tableName)
                 = {[ "pk"%string := partition ]}).
  { unfold GetItem.getItem_params, GetItem.sk_spread, spread2. cbn.
    apply (left_id_L ∅ (∪)). }
  split; [|split].
  - unfold GetItem.getItem_params, GetItem.sk_spread. reflexivity.
  - exact Hkey.
  - eapply List.Forall_impl; [|apply getItem_sends].
    intros command ->. rewrite Hkey. now apply lookup_singleton_ne.
Qed.

Ltac unfold_query_params :=
  unfold Query.query_params, Query.set_ExpressionAttributeNames,
    Query.set_FilterExpression, Query.set_ExpressionAttributeValues, spread2;
  cbv zeta.

(** C6, as the code has it.  With a filter expression that is not the
   empty string and with filter values, the request carries the filter
   expression, and its value map is the key-condition values overlaid
   with the filter values: a name defined by both has the filter's
   value.  Every command of a call carries that map. *)
Theorem filter_values_override {V E : Type} (dynamoDb : Query.Client V E)
    (p : Query.QueryParams V) (expression : string) (values : gmap string V) :
  Query.filterExpression p = Some expression ->
  expression <> ""%string ->
  Query.filterAttributeValues p = Some values ->
  let request := Query.query_params p in
  Query.FilterExpression request = Some expression
  /\ Query.ExpressionAttributeValues request
     = values ∪ Query.expressionAttributeValues p
  /\ (forall name,
        Query.ExpressionAttributeValues request !! name
        = match values !! name with
          | Some v => Some v
          | None => Query.expressionAttributeValues p !! name
          end)
  /\ Forall (fun command => command = request)
       (sends (snd (Query.query dynamoDb p))).
Proof.
  intros Hexpr Hne Hvalues request.
  assert (Hmap : Query.ExpressionAttributeValues request
                 = values ∪ Query.expressionAttributeValues p).
  { subst request. unfold_query_params.
    rewrite Hexpr, (truthy_nonempty _ Hne), Hvalues.
    now destruct (truthy_object _). }
  split; [|split; [exact Hmap|split]].
  - subst request. unfold_query_params.
    rewrite Hexpr, (truthy_nonempty _ Hne), Hvalues.
    now destruct (truthy_object _).
  - intros name. rewrite Hmap, lookup_union.
    destruct (values !! name), (Query.expressionAttributeValues p !! name);
      reflexivity.
  - apply query_sends.
Qed.

(** C7, as the code has it.  [IndexName] and [Limit] are the caller's
   values, absent when the caller left them out.  [ConsistentRead] is
   the caller's flag when there is one and [false] otherwise; it is
   never absent.  [ScanIndexForward] is [true] (ascending) unless the
   caller passed [false].  Every command of a call carries them. *)
Theorem passthrough_fields {V E : Type} (dynamoDb : Query.Client V E)
    (p : Query.QueryParams V) :
  let request := Query.query_params p in
  Query.IndexName request = Query.indexName p
  /\ Query.Limit request = Query.limit p
  /\ Query.ConsistentRead request
     = match Query.consistentRead p with
       | Some flag => Some flag
       | None => Some false
       end
  /\ Query.ScanIndexForward request
     = match Query.scanIndexForward p with
       | Some false => Some false
       | _ => Some true
       end
  /\ Forall (fun command => command = request)
       (sends (snd (Query.query dynamoDb p))).
Proof.
  intros request. subst request.
  repeat split; try apply query_sends; unfold_query_params.
  all: destruct (truthy_object _), (truthy_string _),
         (Query.filterAttributeValues p); cbn.
  all: try reflexivity.
  all: try (destruct (Query.consistentRead p); reflexivity).
  all: destruct (Query.scanIndexForward p) as [[|]|]; reflexivity.
Qed.

(** C9. Filter values supplied without a filter expression reach the
   store in no way: the request has no [FilterExpression] and its value
   map is the key-condition value map as the caller gave it.  Every
   command of a call carries that request. *)
Theorem filter_values_without_expression_ignored {V E : Type}
    (dynamoDb : Query.Client V E) (p : Query.QueryParams V)
    (values : gmap string V) :
  Query.filterExpression p = None ->
  Query.filterAttributeValues p = Some values ->
  let request := Query.query_params p in
  Query.FilterExpression request = None
  /\ Query.ExpressionAttributeValues request = Query.expressionAttributeValues p
  /\ Forall (fun command => command = request)
       (sends (snd (Query.query dynamoDb p))).
Proof.
  intros Hexpr Hvalues request. subst request.
  repeat split; try apply query_sends; unfold_query_params.
  all: rewrite Hexpr; cbn; now destruct (truthy_object _).
Qed.

(** ** Concrete calls *)

Module Examples.

Definition user1 : GetItem.KeySchema :=
  {| GetItem.pk := "USER#1"; GetItem.sk := None |}.

Definition profile1 : GetItem.KeySchema :=
  {| GetItem.pk := "USER#1"; GetItem.sk := Some "PROFILE"%string |}.

Definition empty_sort : GetItem.KeySchema :=
  {| GetItem.pk := "USER#1"; GetItem.sk := Some ""%string |}.

Definition active : GetItem.Record_ string :=
  {[ "status"%string := "ACTIVE"%string ]}.

(** A table in which the record never appears. *)
Definition never_there : GetItem.Client string string :=
  fun _ _ => Resolves {| GetItem.Item := None |}.

(** A table in which the record is there from the third lookup on. *)
Definition there_on_third : GetItem.Client string string :=
  fun h _ =>
    if (length (sends h) <? 2)%nat
    then Resolves {| GetItem.Item := None |}
    else Resolves {| GetItem.Item := Some active |}.

(** A table whose second lookup is refused. *)
Definition denied_on_second : GetItem.Client string string :=
  fun h _ =>
    if (length (sends h) <? 1)%nat
    then Resolves {| GetItem.Item := None |}
    else Rejects "AccessDeniedException"%string.

(** Orders of a user, three attempts, one second apart. *)
Definition orders : Query.QueryParams string :=
  {| Query.tableName := "orders-table";
     Query.keyConditionExpression := "pk = :pk";
     Query.expressionAttributeValues := {[ ":pk"%string := "A"%string ]};
     Query.expressionAttributeNames := None;
     Query.indexName := None;
     Query.limit := None;
     Query.filterExpression := None;
     Query.filterAttributeValues := Some {[ ":pk"%string := "B"%string ]};
     Query.consistentRead := None;
     Query.lastEvaluatedKey := None;
     Query.scanIndexForward := None;
     Query.maxIterations := Some 3;
     Query.delayInSeconds := Some 1 |}.

(** The same query with a filter on top. *)
Definition with_filter (expression : string) : Query.QueryParams string :=
  {| Query.tableName := "orders-table";
     Query.keyConditionExpression := "pk = :pk";
     Query.expressionAttributeValues := {[ ":pk"%string := "A"%string ]};
     Query.expressionAttributeNames := None;
     Query.indexName := None;
     Query.limit := None;
     Query.filterExpression := Some expression;
     Query.filterAttributeValues := Some {[ ":pk"%string := "B"%string ]};
     Query.consistentRead := None;
     Query.lastEvaluatedKey := None;
     Query.scanIndexForward := None;
     Query.maxIterations := Some 3;
     Query.delayInSeconds := Some 1 |}.

Definition no_page : Query.QueryCommandOutput string :=
  {| Query.Items := Some []; Query.LastEvaluatedKey := None |}.

Definition one_order : Query.QueryCommandOutput string :=
  {| Query.Items := Some [active]; Query.LastEvaluatedKey := None |}.

Definition empty_page_with_token : Query.QueryCommandOutput string :=
  {| Query.Items := Some [];
     Query.LastEvaluatedKey := Some {[ "pk"%string := "tok1"%string ]} |}.

Definition no_orders : Query.Client string string :=
  fun _ _ => Resolves no_page.

Definition order_on_third : Query.Client string string :=
  fun h _ =>
    if (length (sends h) <? 2)%nat then Resolves no_page else Resolves one_order.

Definition throttled_on_second : Query.Client string string :=
  fun h _ =>
    if (length (sends h) <? 1)%nat
    then Resolves no_page
    else Rejects "ProvisionedThroughputExceededException"%string.

Definition token_only : Query.Client string string :=
  fun _ _ => Resolves empty_page_with_token.

End Examples.
Import Examples.

Ltac nobody_home :=
  let j := fresh "j" in
  let Hj := fresh "Hj" in
  intros j Hj; cbn in Hj;
  repeat (destruct j as [|j];
          [eexists; repeat split; reflexivity | try (exfalso; lia)]);
  try (exfalso; lia).

Lemma exhausted_budget_not_found_witness :
  (fst (GetItem.getItem never_there user1 "users" (Some 3) (Some 1))
   = Thrown (JsError "record not found")
   /\ snd (GetItem.getItem never_there user1 "users" (Some 3) (Some 1))
      = failed_rounds (GetItem.getItem_params user1 "users") 1 3
   /\ Z.of_nat (length (sends (snd (GetItem.getItem never_there user1 "users"
                                      (Some 3) (Some 1))))) = 3
   /\ Z.of_nat (length (delays (snd (GetItem.getItem never_there user1 "users"
                                       (Some 3) (Some 1))))) = 3
   /\ delays (snd (GetItem.getItem never_there user1 "users" (Some 3) (Some 1)))
      = replicate 3 1)
  /\
  (fst (Query.query no_orders orders)
   = Thrown (JsError "query returned no results after max retries")
   /\ snd (Query.query no_orders orders)
      = failed_rounds (Query.query_params orders) 1 3
   /\ Z.of_nat (length (sends (snd (Query.query no_orders orders)))) = 3
   /\ Z.of_nat (length (delays (snd (Query.query no_orders orders)))) = 3
   /\ delays (snd (Query.query no_orders orders)) = replicate 3 1).
Proof.
  split.
  - apply (proj1 (@exhausted_budget_not_found string string)
             never_there user1 "users"%string (Some 3) (Some 1)).
    + cbn. lia.
    + nobody_home.
  - apply (proj2 (@exhausted_budget_not_found string string) no_orders orders).
    + cbn. lia.
    + nobody_home.
Defined.

Lemma first_success_returns_witness :
  (fst (GetItem.getItem there_on_third profile1 "users" (Some 5) None)
   = Returned active
   /\ snd (GetItem.getItem there_on_third profile1 "users" (Some 5) None)
      = failed_rounds (GetItem.getItem_params profile1 "users") 2 (3 - 1)
          ++ [EvSend (GetItem.getItem_params profile1 "users")]
   /\ length (sends (snd (GetItem.getItem there_on_third profile1 "users"
                            (Some 5) None))) = 3%nat
   /\ length (delays (snd (GetItem.getItem there_on_third profile1 "users"
                             (Some 5) None))) = (3 - 1)%nat
   /\ delays (snd (GetItem.getItem there_on_third profile1 "users"
                     (Some 5) None)) = replicate (3 - 1) 2)
  /\
  (fst (Query.query order_on_third orders)
   = Returned {| Query.items := Query.page_items one_order;
                 Query.resultLastEvaluatedKey :=
                   Query.LastEvaluatedKey one_order |}
   /\ snd (Query.query order_on_third orders)
      = failed_rounds (Query.query_params orders) 1 (3 - 1)
          ++ [EvSend (Query.query_params orders)]
   /\ length (sends (snd (Query.query order_on_third orders))) = 3%nat
   /\ length (delays (snd (Query.query order_on_third orders))) = (3 - 1)%nat
   /\ delays (snd (Query.query order_on_third orders)) = replicate (3 - 1) 1).
Proof.
  split.
  - apply (proj1 (@first_success_returns string string)
             there_on_third profile1 "users"%string (Some 5) None 3%nat
             {| GetItem.Item := Some active |} active).
    + lia.
    + cbn. lia.
    + nobody_home.
    + reflexivity.
    + reflexivity.
  - apply (proj2 (@first_success_returns string string)
             order_on_third orders 3%nat one_order).
    + lia.
    + cbn. lia.
    + nobody_home.
    + reflexivity.
    + left. cbn. discriminate.
Defined.

Lemma store_error_rethrown_witness :
  (fst (GetItem.getItem denied_on_second user1 "users" (Some 3) (Some 1))
   = Thrown (StoreFailure "AccessDeniedException"%string)
   /\ fst (GetItem.getItem denied_on_second user1 "users" (Some 3) (Some 1))
      <> Thrown (JsError "record not found")
   /\ snd (GetItem.getItem denied_on_second user1 "users" (Some 3) (Some 1))
      = failed_rounds (GetItem.getItem_params user1 "users") 1 (2 - 1)
          ++ [EvSend (GetItem.getItem_params user1 "users");
              EvConsoleError "AccessDeniedException"%string]
   /\ length (sends (snd (GetItem.getItem denied_on_second user1 "users"
                            (Some 3) (Some 1)))) = 2%nat
   /\ length (delays (snd (GetItem.getItem denied_on_second user1 "users"
                             (Some 3) (Some 1)))) = (2 - 1)%nat)
  /\
  (fst (Query.query throttled_on_second orders)
   = Thrown (StoreFailure "ProvisionedThroughputExceededException"%string)
   /\ fst (Query.query throttled_on_second orders)
      <> Thrown (JsError "query returned no results after max retries")
   /\ snd (Query.query throttled_on_second orders)
      = failed_rounds (Query.query_params orders) 1 (2 - 1)
          ++ [EvSend (Query.query_params orders);
              EvConsoleError "ProvisionedThroughputExceededException"%string]
   /\ length (sends (snd (Query.query throttled_on_second orders))) = 2%nat
   /\ length (delays (snd (Query.query throttled_on_second orders)))
      = (2 - 1)%nat).
Proof.
  split.
  - apply (proj1 (@store_error_rethrown string string)
             denied_on_second user1 "users"%string (Some 3) (Some 1) 2%nat
             "AccessDeniedException"%string).
    + lia.
    + cbn. lia.
    + nobody_home.
    + reflexivity.
  - apply (proj2 (@store_error_rethrown string string)
             throttled_on_second orders 2%nat
             "ProvisionedThroughputExceededException"%string).
    + lia.
    + cbn. lia.
    + nobody_home.
    + reflexivity.
Defined.

Lemma success_criteria_witness :
  (* a page with one item and no token is returned at once *)
  Query.query_loop order_on_third (Query.query_params orders) 3 1 3
    (failed_rounds (Query.query_params orders) 1 2)
  = (Returned {| Query.items := [active];
                 Query.resultLastEvaluatedKey := None |},
     failed_rounds (Query.query_params orders) 1 2
       ++ [EvSend (Query.query_params orders)])
  (* an empty page with a token is returned at once *)
  /\ Query.query_loop token_only (Query.query_params orders) 3 1 1 []
     = (Returned {| Query.items := [];
                    Query.resultLastEvaluatedKey :=
                      Some {[ "pk"%string := "tok1"%string ]} |},
        [] ++ [EvSend (Query.query_params orders)])
  (* an empty page without a token is not returned *)
  /\ Query.query_loop no_orders (Query.query_params orders) 3 1 1 []
     <> (Returned {| Query.items := [];
                     Query.resultLastEvaluatedKey := None |},
         [] ++ [EvSend (Query.query_params orders)])
  /\ Query.query_loop no_orders (Query.query_params orders) 3 1 1 []
     = Query.query_loop no_orders (Query.query_params orders) 3 1 (1 + 1)
         ([] ++ [EvSend (Query.query_params orders); EvDelay 1])
  /\ Query.query token_only orders
     = (Returned {| Query.items := [];
                    Query.resultLastEvaluatedKey :=
                      Some {[ "pk"%string := "tok1"%string ]} |},
        [EvSend (Query.query_params orders)])
  (* a response with an item is returned at once, one without is not *)
  /\ (exists item,
         GetItem.getItem_loop there_on_third
           (GetItem.getItem_params profile1 "users") 5 2 3
           (failed_rounds (GetItem.getItem_params profile1 "users") 2 2)
         = (Returned item,
            failed_rounds (GetItem.getItem_params profile1 "users") 2 2
              ++ [EvSend (GetItem.getItem_params profile1 "users")]))
  /\ ~ (exists item,
          GetItem.getItem_loop there_on_third
            (GetItem.getItem_params profile1 "users") 5 2 1 []
          = (Returned item,
             [] ++ [EvSend (GetItem.getItem_params profile1 "users")])).
Proof.
  split; [|split; [|split; [|split; [|split; [|split]]]]].
  - apply (proj1 (@success_criteria string string)
             order_on_third (Query.query_params orders) 3 1 3
             (failed_rounds (Query.query_params orders) 1 2) one_order).
    + lia.
    + reflexivity.
    + left. exists [active]. split; [reflexivity|cbn; lia].
  - apply (proj1 (@success_criteria string string)
             token_only (Query.query_params orders) 3 1 1 []
             empty_page_with_token).
    + lia.
    + reflexivity.
    + right. exists {[ "pk"%string := "tok1"%string ]}. reflexivity.
  - intros Hrun.
    apply (proj1 (@success_criteria string string)
             no_orders (Query.query_params orders) 3 1 1 [] no_page) in Hrun.
    + destruct Hrun as [(items & Hitems & Hlen)|(token & Htoken)].
      * injection Hitems as <-. cbn in Hlen. lia.
      * discriminate Htoken.
    + lia.
    + reflexivity.
  - apply (proj1 (proj2 (@success_criteria string string))
             no_orders (Query.query_params orders) 3 1 1 [] no_page).
    + lia.
    + reflexivity.
    + right. reflexivity.
    + reflexivity.
  - apply (proj1 (proj2 (proj2 (@success_criteria string string)))
             token_only orders empty_page_with_token
             {[ "pk"%string := "tok1"%string ]}).
    + cbn. lia.
    + reflexivity.
    + right. reflexivity.
    + reflexivity.
  - apply (proj2 (proj2 (proj2 (@success_criteria string string)))
             there_on_third (GetItem.getItem_params profile1 "users") 5 2 3
             (failed_rounds (GetItem.getItem_params profile1 "users") 2 2)
             {| GetItem.Item := Some active |}).
    + lia.
    + reflexivity.
    + now exists active.
  - intros Hrun.
    apply (proj2 (proj2 (proj2 (@success_criteria string string)))
             there_on_third (GetItem.getItem_params profile1 "users") 5 2 1 []
             {| GetItem.Item := None |}) in Hrun.
    + destruct Hrun as (item & Hitem). discriminate Hitem.
    + lia.
    + reflexivity.
Defined.

Lemma getItem_key_fields_witness :
  (GetItem.Key (GetItem.getItem_params user1 "users")
   = {[ "pk"%string := GetItem.pk user1 ]}
   /\ GetItem.Key (GetItem.getItem_params user1 "users") !! "sk"%string
      = None)
  /\ (GetItem.Key (GetItem.getItem_params profile1 "users")
      = <[ "sk"%string := "PROFILE"%string ]>
          {[ "pk"%string := GetItem.pk profile1 ]}
      /\ GetItem.Key (GetItem.getItem_params profile1 "users") !! "pk"%string
         = Some (GetItem.pk profile1)
      /\ GetItem.Key (GetItem.getItem_params profile1 "users") !! "sk"%string
         = Some "PROFILE"%string).
Proof.
  split.
  - apply (proj1 (@getItem_key_fields string string never_there user1
                    "users"%string (Some 3) (Some 1))).
    reflexivity.
  - apply (proj1 (proj2 (@getItem_key_fields string string never_there profile1
                           "users"%string (Some 3) (Some 1)))
             "PROFILE"%string).
    + reflexivity.
    + discriminate.
Defined.

(** C5 as stated fails for a sort id that is present and empty: the
   caller's key has an [sk], the [Key] sent has none. *)
Lemma present_empty_sort_key_not_sent :
  GetItem.sk empty_sort = Some ""%string
  /\ GetItem.Key (GetItem.getItem_params empty_sort "users") !! "sk"%string
     = None
  /\ GetItem.Key (GetItem.getItem_params empty_sort "users") !! "sk"%string
     <> Some ""%string
  /\ sends (snd (GetItem.getItem never_there empty_sort "users" (Some 1) (Some 1)))
     = [ {| GetItem.TableName := "users";
            GetItem.Key := {[ "pk"%string := "USER#1"%string ]} |} ].
Proof.
  split; [reflexivity|]. split; [|split].
  - vm_compute. reflexivity.
  - vm_compute. discriminate.
  - vm_compute. reflexivity.
Qed.

Lemma filter_values_override_witness :
  Query.FilterExpression (Query.query_params (with_filter "createdAt > :date"))
  = Some "createdAt > :date"%string
  /\ Query.ExpressionAttributeValues
       (Query.query_params (with_filter "createdAt > :date"))
     = {[ ":pk"%string := "B"%string ]}
         ∪ Query.expressionAttributeValues (with_filter "createdAt > :date")
  /\ (forall name,
        Query.ExpressionAttributeValues
          (Query.query_params (with_filter "createdAt > :date")) !! name
        = match ({[ ":pk"%string := "B"%string ]} : gmap string string) !! name with
          | Some v => Some v
          | None =>
              Query.expressionAttributeValues (with_filter "createdAt > :date")
                !! name
          end)
  /\ Forall (fun command =>
               command = Query.query_params (with_filter "createdAt > :date"))
       (sends (snd (Query.query no_orders (with_filter "createdAt > :date")))).
Proof.
  apply (@filter_values_override string string no_orders
           (with_filter "createdAt > :date") "createdAt > :date"%string
           {[ ":pk"%string := "B"%string ]}).
  - reflexivity.
  - discriminate.
  - reflexivity.
Defined.

(** C6 as stated fails for a filter expression that is supplied and
   empty: both filter fields are given, the value sent for the shared
   name is the key condition's, and no filter expression is sent. *)
Lemma empty_filter_expression_no_merge :
  Query.filterExpression (with_filter "") = Some ""%string
  /\ Query.filterAttributeValues (with_filter "")
     = Some {[ ":pk"%string := "B"%string ]}
  /\ Query.expressionAttributeValues (with_filter "") !! ":pk"%string
     = Some "A"%string
  /\ Query.ExpressionAttributeValues (Query.query_params (with_filter ""))
       !! ":pk"%string
     = Some "A"%string
  /\ Query.ExpressionAttributeValues (Query.query_params (with_filter ""))
       !! ":pk"%string
     <> Some "B"%string
  /\ Query.FilterExpression (Query.query_params (with_filter "")) = None.
Proof.
  split; [reflexivity|]. split; [reflexivity|].
  split; [vm_compute; reflexivity|]. split; [vm_compute; reflexivity|].
  split; [vm_compute; discriminate|]. reflexivity.
Qed.

(** C7 as stated fails for an absent consistency flag: the caller
   leaves it out, the request carries [ConsistentRead: false]. *)
Lemma absent_consistency_flag_sent_false :
  Query.consistentRead orders = None
  /\ Query.ConsistentRead (Query.query_params orders) = Some false
  /\ Query.ConsistentRead (Query.query_params orders)
     <> Query.consistentRead orders.
Proof.
  split; [reflexivity|]. split; [reflexivity|]. cbn. discriminate.
Qed.

Lemma filter_values_without_expression_ignored_witness :
  Query.FilterExpression (Query.query_params orders) = None
  /\ Query.ExpressionAttributeValues (Query.query_params orders)
     = Query.expressionAttributeValues orders
  /\ Forall (fun command => command = Query.query_params orders)
       (sends (snd (Query.query no_orders orders))).
Proof.
  apply (@filter_values_without_expression_ignored string string no_orders
           orders {[ ":pk"%string := "B"%string ]}).
  - reflexivity.
  - reflexivity.
Defined.

(** * Further properties of the two pollers *)

(** ** The shape of every run *)

Section UnrolledShape.
Context {Req Resp A E : Type}.
Variable client : History Req E -> Req -> Reply Resp E.
Variable params : Req.
Variable accept : Resp -> option A.
Variable seconds : Z.
Variable message : string.

Local Abbreviation loop := (unrolled client params accept seconds message).
Local Abbreviation rounds := (@failed_rounds Req E params seconds).
Local Abbreviation fails := (round_fails client params accept).

Lemma failed_rounds_shift (h : History Req E) (k : nat) :
  (h ++ [EvSend params; EvDelay seconds]) ++ rounds k = h ++ rounds (S k).
Proof.
  rewrite <- app_assoc. f_equal.
  induction k as [|k IH]; [reflexivity|].
  cbn [failed_rounds] in *. now rewrite app_assoc, IH.
Qed.

(** How a run that starts in history [h] with [n] iterations left can
   end: after [n] rounds that found nothing, with the budget spent; or
   after [k < n] such rounds, with an accepted response or with a
   rejected call. *)
Inductive run_shape (n : nat) (h : History Req E)
  : Completion A E * History Req E -> Prop :=
| shape_exhausted :
    (forall j, (j < n)%nat -> fails (h ++ rounds j)) ->
    run_shape n h (Thrown (JsError message), h ++ rounds n)
| shape_found (k : nat) (response : Resp) (value : A) :
    (k < n)%nat ->
    (forall j, (j < k)%nat -> fails (h ++ rounds j)) ->
    client (h ++ rounds k) params = Resolves response ->
    accept response = Some value ->
    run_shape n h (Returned value, (h ++ rounds k) ++ [EvSend params])
| shape_rejected (k : nat) (error : E) :
    (k < n)%nat ->
    (forall j, (j < k)%nat -> fails (h ++ rounds j)) ->
    client (h ++ rounds k) params = Rejects error ->
    run_shape n h
      (Thrown (StoreFailure error),
       (h ++ rounds k) ++ [EvSend params; EvConsoleError error]).

Lemma fails_shift (h : History Req E) (k : nat) :
  fails h ->
  (forall j, (j < k)%nat ->
     fails ((h ++ [EvSend params; EvDelay seconds]) ++ rounds j)) ->
  forall j, (j < S k)%nat -> fails (h ++ rounds j).
Proof.
  intros Hfirst Hrest [|j] Hj.
  - cbn [failed_rounds]. now rewrite app_nil_r.
  - rewrite <- failed_rounds_shift. apply Hrest. lia.
Qed.

Lemma run_shape_later (n : nat) (h : History Req E) run :
  fails h ->
  run_shape n (h ++ [EvSend params; EvDelay seconds]) run ->
  run_shape (S n) h run.
Proof.
  intros Hfirst Hrun.
  destruct Hrun as [Hfail|k response value Hk Hfail Hsend Hsome
                   |k error Hk Hfail Hsend];
    rewrite failed_rounds_shift in *.
  - apply shape_exhausted. now apply fails_shift.
  - apply (shape_found (S n) h (S k) response value);
      [lia|now apply fails_shift|exact Hsend|exact Hsome].
  - apply (shape_rejected (S n) h (S k) error);
      [lia|now apply fails_shift|exact Hsend].
Qed.

Lemma unrolled_shape (n : nat) (h : History Req E) :
  run_shape n h (loop n h).
Proof.
  revert h. induction n as [|n IH]; intros h; cbn [unrolled].
  - rewrite <- (app_nil_r h) at 2. apply shape_exhausted. intros j Hj. lia.
  - destruct (client h params) as [response|error] eqn:Hsend.
    + destruct (accept response) as [value|] eqn:Haccept.
      * rewrite <- (app_nil_r h) at 2.
        apply (shape_found (S n) h 0 response value);
          [lia|intros j Hj; lia| |exact Haccept].
        cbn [failed_rounds]. now rewrite app_nil_r.
      * apply run_shape_later; [now exists response|apply IH].
    + rewrite <- (app_nil_r h) at 2.
      apply (shape_rejected (S n) h 0 error); [lia|intros j Hj; lia|].
      cbn [failed_rounds]. now rewrite app_nil_r.
Qed.

End UnrolledShape.

(** ** What every call of a poller does, whatever the store answers *)

Lemma getItem_shape {V E : Type} (docClient : GetItem.Client V E)
    keys tableName maxIterations delayInSeconds :
  run_shape docClient (GetItem.getItem_params keys tableName) GetItem.Item
    (nullish delayInSeconds 2) "record not found"
    (Z.to_nat (nullish maxIterations 10)) []
    (GetItem.getItem docClient keys tableName maxIterations delayInSeconds).
Proof. rewrite getItem_unrolled. apply unrolled_shape. Qed.

Lemma query_shape {V E : Type} (dynamoDb : Query.Client V E)
    (p : Query.QueryParams V) :
  run_shape dynamoDb (Query.query_params p) Query.accept
    (nullish (Query.delayInSeconds p) 2)
    "query returned no results after max retries"
    (Z.to_nat (nullish (Query.maxIterations p) 10)) []
    (Query.query dynamoDb p).
Proof. rewrite query_unrolled. apply unrolled_shape. Qed.

Lemma accept_inv {V : Type} (data : Query.QueryCommandOutput V) page :
  Query.accept data = Some page ->
  page = {| Query.items := Query.page_items data;
            Query.resultLastEvaluatedKey := Query.LastEvaluatedKey data |}
  /\ (Query.page_items data <> [] \/ Query.LastEvaluatedKey data <> None).
Proof.
  unfold Query.accept. destruct (Query.page_found data) eqn:Hfound;
    [|discriminate].
  intros [= <-]. split; [reflexivity|now apply page_found_iff].
Qed.

Lemma accept_none_inv {V : Type} (data : Query.QueryCommandOutput V) :
  Query.accept data = None ->
  Query.page_items data = [] /\ Query.LastEvaluatedKey data = None.
Proof.
  unfold Query.accept, Query.page_found.
  destruct (Query.page_items data) as [|item rest];
    destruct (Query.LastEvaluatedKey data); cbn; intros; try discriminate.
  now split.
Qed.

Lemma fails_getItem_finds_nothing {V E : Type} (docClient : GetItem.Client V E)
    params h :
  round_fails docClient params GetItem.Item h ->
  getItem_finds_nothing docClient params h.
Proof. intros (response & Hsend & Hnone). now exists response. Qed.

Lemma fails_query_finds_nothing {V E : Type} (dynamoDb : Query.Client V E)
    baseParams h :
  round_fails dynamoDb baseParams Query.accept h ->
  query_finds_nothing dynamoDb baseParams h.
Proof.
  intros (data & Hsend & Hnone). exists data.
  split; [exact Hsend | now apply accept_none_inv].
Qed.

#[local] Hint Resolve fails_getItem_finds_nothing fails_query_finds_nothing
  : pollers.

(** The effects of a run, counted from its shape. *)
Lemma run_shape_counts {Req Resp A E : Type}
    (client : History Req E -> Req -> Reply Resp E) params
    (accept : Resp -> option A) seconds message n run :
  run_shape client params accept seconds message n [] run ->
  (length (sends (snd run)) <= n)%nat
  /\ (length (delays (snd run)) <= length (sends (snd run)))%nat
  /\ Forall (fun s => s = seconds) (delays (snd run))
  /\ Forall (fun c => c = params) (sends (snd run)).
Proof.
  intros Hrun.
  destruct Hrun as [Hfail|k response value Hk Hfail Hsend Hsome
                   |k error Hk Hfail Hsend];
    cbn [snd app]; count_effects; repeat split; try lia;
    apply Forall_replicate; reflexivity.
Qed.

(** X1.  A call never sends more commands than its budget, and none at all
   when the budget is zero or negative; it never pauses more often than
   it sends, and every pause lasts the configured number of seconds. *)
Theorem bounded_effort {V E : Type} :
  (forall (docClient : GetItem.Client V E) keys tableName
          maxIterations delayInSeconds,
      let run :=
        GetItem.getItem docClient keys tableName maxIterations delayInSeconds in
      Z.of_nat (length (sends (snd run))) <= Z.max 0 (nullish maxIterations 10)
      /\ (length (delays (snd run)) <= length (sends (snd run)))%nat
      /\ Forall (fun s => s = nullish delayInSeconds 2) (delays (snd run)))
  /\
  (forall (dynamoDb : Query.Client V E) (p : Query.QueryParams V),
      let run := Query.query dynamoDb p in
      Z.of_nat (length (sends (snd run)))
      <= Z.max 0 (nullish (Query.maxIterations p) 10)
      /\ (length (delays (snd run)) <= length (sends (snd run)))%nat
      /\ Forall (fun s => s = nullish (Query.delayInSeconds p) 2)
           (delays (snd run))).
Proof.
  split.
  - intros docClient keys tableName maxIterations delayInSeconds run.
    destruct (run_shape_counts _ _ _ _ _ _ _
                (getItem_shape docClient keys tableName maxIterations
                   delayInSeconds)) as (Hs & Hd & Hall & _).
    fold run in Hs, Hd, Hall. repeat split; [lia|exact Hd|exact Hall].
  - intros dynamoDb p run.
    destruct (run_shape_counts _ _ _ _ _ _ _ (query_shape dynamoDb p))
      as (Hs & Hd & Hall & _).
    fold run in Hs, Hd, Hall. repeat split; [lia|exact Hd|exact Hall].
Qed.

(** X2.  With a budget of zero or less the store is never contacted: the
   call throws its not-found error without a single command or pause. *)
Theorem no_budget_no_call {V E : Type} :
  (forall (docClient : GetItem.Client V E) keys tableName
          maxIterations delayInSeconds,
      nullish maxIterations 10 <= 0 ->
      GetItem.getItem docClient keys tableName maxIterations delayInSeconds
      = (Thrown (JsError "record not found"), []))
  /\
  (forall (dynamoDb : Query.Client V E) (p : Query.QueryParams V),
      nullish (Query.maxIterations p) 10 <= 0 ->
      Query.query dynamoDb p
      = (Thrown (JsError "query returned no results after max retries"), [])).
Proof.
  split.
  - intros docClient keys tableName maxIterations delayInSeconds HN.
    rewrite getItem_unrolled.
    replace (Z.to_nat (nullish maxIterations 10)) with O by lia. reflexivity.
  - intros dynamoDb p HN. rewrite query_unrolled.
    replace (Z.to_nat (nullish (Query.maxIterations p) 10)) with O by lia.
    reflexivity.
Qed.

Ltac earlier_rounds :=
  try reflexivity; try assumption;
  try (let j := fresh "j" in
       let Hj := fresh "Hj" in
       intros j Hj;
       first [apply fails_getItem_finds_nothing
             |apply fails_query_finds_nothing];
       match goal with Hfail : forall _, _ -> round_fails _ _ _ _ |- _ =>
         apply Hfail; exact Hj end).

Ltac invert_shape Hshape Hfst :=
  inversion Hshape as [Hfail Heq|k response value Hk Hfail Hsend Hsome Heq
                      |k error Hk Hfail Hsend Heq];
  rewrite <- Heq in Hfst; cbn [fst] in Hfst; try discriminate Hfst.

(** X3.  A poller throws an [Error] of its own only when the budget is
   spent: the error is its not-found error, and the run is exactly
   [maxIterations] rounds, each of which resolved and found nothing. *)
Theorem not_found_means_budget_spent {V E : Type} :
  (forall (docClient : GetItem.Client V E) keys tableName
          maxIterations delayInSeconds message,
      let N := Z.to_nat (nullish maxIterations 10) in
      let d := nullish delayInSeconds 2 in
      let params := GetItem.getItem_params keys tableName in
      let run :=
        GetItem.getItem docClient keys tableName maxIterations delayInSeconds in
      fst run = Thrown (JsError message) ->
      message = "record not found"%string
      /\ snd run = failed_rounds params d N
      /\ length (sends (snd run)) = N
      /\ length (delays (snd run)) = N
      /\ forall j, (j < N)%nat ->
           getItem_finds_nothing docClient params (failed_rounds params d j))
  /\
  (forall (dynamoDb : Query.Client V E) (p : Query.QueryParams V) message,
      let N := Z.to_nat (nullish (Query.maxIterations p) 10) in
      let d := nullish (Query.delayInSeconds p) 2 in
      let baseParams := Query.query_params p in
      let run := Query.query dynamoDb p in
      fst run = Thrown (JsError message) ->
      message = "query returned no results after max retries"%string
      /\ snd run = failed_rounds baseParams d N
      /\ length (sends (snd run)) = N
      /\ length (delays (snd run)) = N
      /\ forall j, (j < N)%nat ->
           query_finds_nothing dynamoDb baseParams
             (failed_rounds baseParams d j)).
Proof.
  split.
  - intros docClient keys tableName maxIterations delayInSeconds message
      N d params run Hfst.
    pose proof (getItem_shape docClient keys tableName maxIterations
                  delayInSeconds) as Hshape.
    fold run N d params in Hshape. invert_shape Hshape Hfst.
    injection Hfst as <-. cbn [snd app]. count_effects.
    repeat split; earlier_rounds.
  - intros dynamoDb p message N d baseParams run Hfst.
    pose proof (query_shape dynamoDb p) as Hshape.
    fold run N d baseParams in Hshape. invert_shape Hshape Hfst.
    injection Hfst as <-. cbn [snd app]. count_effects.
    repeat split; earlier_rounds.
Qed.

(** X4.  What a poller returns is what the store answered to the last
   command of the run: the call returned after [k + 1 <= maxIterations]
   commands, the first [k] of them found nothing, and the response to
   the last one carried the returned item (for [query]: the returned
   page, which has an item or a [LastEvaluatedKey]). *)
Theorem returned_value_from_last_response {V E : Type} :
  (forall (docClient : GetItem.Client V E) keys tableName
          maxIterations delayInSeconds item,
      let N := Z.to_nat (nullish maxIterations 10) in
      let d := nullish delayInSeconds 2 in
      let params := GetItem.getItem_params keys tableName in
      let run :=
        GetItem.getItem docClient keys tableName maxIterations delayInSeconds in
      fst run = Returned item ->
      exists k response,
        (k < N)%nat
        /\ snd run = failed_rounds params d k ++ [EvSend params]
        /\ docClient (failed_rounds params d k) params = Resolves response
        /\ GetItem.Item response = Some item
        /\ forall j, (j < k)%nat ->
             getItem_finds_nothing docClient params (failed_rounds params d j))
  /\
  (forall (dynamoDb : Query.Client V E) (p : Query.QueryParams V) page,
      let N := Z.to_nat (nullish (Query.maxIterations p) 10) in
      let d := nullish (Query.delayInSeconds p) 2 in
      let baseParams := Query.query_params p in
      let run := Query.query dynamoDb p in
      fst run = Returned page ->
      exists k data,
        (k < N)%nat
        /\ snd run = failed_rounds baseParams d k ++ [EvSend baseParams]
        /\ dynamoDb (failed_rounds baseParams d k) baseParams = Resolves data
        /\ Query.items page = Query.page_items data
        /\ Query.resultLastEvaluatedKey page = Query.LastEvaluatedKey data
        /\ forall j, (j < k)%nat ->
             query_finds_nothing dynamoDb baseParams
               (failed_rounds baseParams d j)).
Proof.
  split.
  - intros docClient keys tableName maxIterations delayInSeconds item
      N d params run Hfst.
    pose proof (getItem_shape docClient keys tableName maxIterations
                  delayInSeconds) as Hshape.
    fold run N d params in Hshape. invert_shape Hshape Hfst.
    injection Hfst as <-. exists k, response. cbn [snd app] in *.
    repeat split; earlier_rounds.
  - intros dynamoDb p page N d baseParams run Hfst.
    pose proof (query_shape dynamoDb p) as Hshape.
    fold run N d baseParams in Hshape. invert_shape Hshape Hfst.
    injection Hfst as <-. exists k, response. cbn [snd app] in *.
    destruct (accept_inv _ _ Hsome) as [-> _].
    repeat split; earlier_rounds.
Qed.

(** X5.  [query] never returns an empty page without a [LastEvaluatedKey]. *)
Theorem returned_page_never_empty_without_token {V E : Type}
    (dynamoDb : Query.Client V E) (p : Query.QueryParams V) page :
  fst (Query.query dynamoDb p) = Returned page ->
  Query.items page <> [] \/ Query.resultLastEvaluatedKey page <> None.
Proof.
  intros Hfst. pose proof (query_shape dynamoDb p) as Hshape.
  invert_shape Hshape Hfst. injection Hfst as <-.
  destruct (accept_inv _ _ Hsome) as [-> Hfound]. exact Hfound.
Qed.

(** X6.  A store error comes out of a poller only as the error of the last
   command of the run: the first [k] commands found nothing, command
   [k + 1 <= maxIterations] was rejected with that error, and it was
   logged and rethrown without a pause. *)
Theorem thrown_store_error_from_last_call {V E : Type} :
  (forall (docClient : GetItem.Client V E) keys tableName
          maxIterations delayInSeconds error,
      let N := Z.to_nat (nullish maxIterations 10) in
      let d := nullish delayInSeconds 2 in
      let params := GetItem.getItem_params keys tableName in
      let run :=
        GetItem.getItem docClient keys tableName maxIterations delayInSeconds in
      fst run = Thrown (StoreFailure error) ->
      exists k,
        (k < N)%nat
        /\ snd run
           = failed_rounds params d k ++ [EvSend params; EvConsoleError error]
        /\ docClient (failed_rounds params d k) params = Rejects error
        /\ forall j, (j < k)%nat ->
             getItem_finds_nothing docClient params (failed_rounds params d j))
  /\
  (forall (dynamoDb : Query.Client V E) (p : Query.QueryParams V) error,
      let N := Z.to_nat (nullish (Query.maxIterations p) 10) in
      let d := nullish (Query.delayInSeconds p) 2 in
      let baseParams := Query.query_params p in
      let run := Query.query dynamoDb p in
      fst run = Thrown (StoreFailure error) ->
      exists k,
        (k < N)%nat
        /\ snd run
           = failed_rounds baseParams d k
               ++ [EvSend baseParams; EvConsoleError error]
        /\ dynamoDb (failed_rounds baseParams d k) baseParams = Rejects error
        /\ forall j, (j < k)%nat ->
             query_finds_nothing dynamoDb baseParams
               (failed_rounds baseParams d j)).
Proof.
  split.
  - intros docClient keys tableName maxIterations delayInSeconds error0
      N d params run Hfst.
    pose proof (getItem_shape docClient keys tableName maxIterations
                  delayInSeconds) as Hshape.
    fold run N d params in Hshape. invert_shape Hshape Hfst.
    injection Hfst as <-. exists k. cbn [snd app] in *.
    repeat split; earlier_rounds.
  - intros dynamoDb p error0 N d baseParams run Hfst.
    pose proof (query_shape dynamoDb p) as Hshape.
    fold run N d baseParams in Hshape. invert_shape Hshape Hfst.
    injection Hfst as <-. exists k. cbn [snd app] in *.
    repeat split; earlier_rounds.
Qed.

(** ** More on the requests *)

(** X7.  The lookup always names the caller's table and always carries the
   [pk] field with the caller's value, the empty string included (only
   [sk] is guarded); the [Key] has no field other than [pk] and [sk],
   and its [sk] is the caller's sort id unless that is absent or empty. *)
Theorem partition_key_always_sent (keys : GetItem.KeySchema)
    (tableName : string) :
  let params := GetItem.getItem_params keys tableName in
  GetItem.TableName params = tableName
  /\ GetItem.Key params !! "pk"%string = Some (GetItem.pk keys)
  /\ GetItem.Key params !! "sk"%string
     = match GetItem.sk keys with
       | Some s => if String.eqb s "" then None else Some s
       | None => None
       end
  /\ forall name, name <> "pk"%string -> name <> "sk"%string ->
       GetItem.Key params !! name = None.
Proof.
  intros params. subst params.
  unfold GetItem.getItem_params, GetItem.sk_spread, spread2.
  cbn [GetItem.Key GetItem.TableName truthy_string].
  split; [reflexivity|].
  assert (Hbare : forall name,
             name <> "pk"%string ->
             ({[ "pk"%string := GetItem.pk keys ]} : gmap string string) !! name
             = None).
  { intros name Hname. now apply lookup_singleton_ne. }
  destruct (GetItem.sk keys) as [s|]; [destruct (String.eqb s "")|];
    cbn [negb].
  - rewrite (left_id_L ∅ (∪)).
    split; [apply lookup_singleton_eq|]. split; [now apply Hbare|].
    intros name Hpk _. now apply Hbare.
  - rewrite <- insert_union_singleton_l. split; [|split].
    + rewrite lookup_insert_ne by discriminate. apply lookup_singleton_eq.
    + apply lookup_insert_eq.
    + intros name Hpk Hsk. rewrite lookup_insert_ne by congruence.
      now apply Hbare.
  - rewrite (left_id_L ∅ (∪)).
    split; [apply lookup_singleton_eq|]. split; [now apply Hbare|].
    intros name Hpk _. now apply Hbare.
Qed.

(** X8.  The fields of the request that no branch of [query] touches after
   the object literal: table, key condition and start key are the
   caller's, and the name map is the caller's name map, sent exactly
   when the caller supplied one (an empty one included). *)
Theorem untouched_fields_passthrough {V : Type} (p : Query.QueryParams V) :
  let request := Query.query_params p in
  Query.TableName request = Query.tableName p
  /\ Query.KeyConditionExpression request = Query.keyConditionExpression p
  /\ Query.ExclusiveStartKey request = Query.lastEvaluatedKey p
  /\ Query.ExpressionAttributeNames request = Query.expressionAttributeNames p.
Proof.
  intros request. subst request. unfold_query_params.
  destruct (Query.expressionAttributeNames p) as [names|];
    destruct (truthy_string _), (Query.filterAttributeValues p); cbn;
    repeat split; reflexivity.
Qed.

(** X9.  A filter expression that is absent or empty leaves no trace in the
   request, whatever filter values come with it: no [FilterExpression]
   is sent and the value map is the key-condition map. *)
Theorem falsy_filter_expression_ignored {V : Type} (p : Query.QueryParams V) :
  truthy_string (Query.filterExpression p) = false ->
  let request := Query.query_params p in
  Query.FilterExpression request = None
  /\ Query.ExpressionAttributeValues request = Query.expressionAttributeValues p.
Proof.
  intros Hfalsy request. subst request. unfold_query_params.
  rewrite Hfalsy. now destruct (truthy_object _).
Qed.

(** X10.  A filter expression without filter values is sent as it is, with
   the key-condition values alone. *)
Theorem filter_expression_without_values {V : Type} (p : Query.QueryParams V)
    (expression : string) :
  Query.filterExpression p = Some expression ->
  expression <> ""%string ->
  Query.filterAttributeValues p = None ->
  let request := Query.query_params p in
  Query.FilterExpression request = Some expression
  /\ Query.ExpressionAttributeValues request = Query.expressionAttributeValues p.
Proof.
  intros Hexpr Hne Hvalues request. subst request. unfold_query_params.
  rewrite Hexpr, (truthy_nonempty _ Hne), Hvalues.
  now destruct (truthy_object _).
Qed.

(** X11.  Merging the filter values loses no placeholder: the names of the
   value map sent are exactly the names of the two maps together, and a
   key-condition name that the filter does not define keeps its value. *)
Theorem merged_values_keep_every_name {V : Type} (p : Query.QueryParams V)
    (expression : string) (values : gmap string V) :
  Query.filterExpression p = Some expression ->
  expression <> ""%string ->
  Query.filterAttributeValues p = Some values ->
  let sent := Query.ExpressionAttributeValues (Query.query_params p) in
  dom sent = dom (Query.expressionAttributeValues p) ∪ dom values
  /\ forall name, values !! name = None ->
       sent !! name = Query.expressionAttributeValues p !! name.
Proof.
  intros Hexpr Hne Hvalues sent.
  assert (Hsent : sent = values ∪ Query.expressionAttributeValues p).
  { subst sent. unfold_query_params.
    rewrite Hexpr, (truthy_nonempty _ Hne), Hvalues.
    now destruct (truthy_object _). }
  rewrite Hsent. split.
  - rewrite dom_union_L. apply (comm_L (∪)).
  - intros name Hnone. rewrite lookup_union, Hnone.
    now destruct (Query.expressionAttributeValues p !! name).
Qed.

(** * The fixture writer *)

(** X12.  [putItem] makes a single attempt: whatever the store answers, the
   history has exactly one command, carrying the table name and the
   item as given, and no pause; the call returns exactly when the store
   resolves and throws exactly what the store rejected with, never an
   error of its own. *)
Theorem putItem_single_attempt {V E : Type} (docClient : PutItem.Client V E)
    (tableName : string) (item : gmap string V) :
  let params := {| PutItem.TableName := tableName; PutItem.Item := item |} in
  let run := PutItem.putItem docClient tableName item in
  sends (snd run) = [params]
  /\ delays (snd run) = []
  /\ (fst run = Returned tt <-> exists output, docClient [] params = Resolves output)
  /\ (forall error,
        fst run = Thrown (StoreFailure error)
        <-> docClient [] params = Rejects error)
  /\ (forall message, fst run <> Thrown (JsError message)).
Proof.
  intros params run. subst run. unfold PutItem.putItem. fold params.
  destruct (docClient [] params) as [[]|error]; cbn.
  - repeat split; try discriminate; eauto.
  - repeat split; try discriminate; try congruence.
    intros (output & Hout). discriminate.
Qed.

(** * Random identifiers *)

Lemma substring_0_length (n : nat) (s : string) :
  String.length (String.substring 0 n s) = Nat.min n (String.length s).
Proof.
  revert n. induction s as [|c s IH]; intros [|n]; cbn; try reflexivity.
  now rewrite IH.
Qed.

Lemma substring_0_prefix (n : nat) (s : string) :
  exists rest, s = String.substring 0 n s +:+ rest.
Proof.
  revert n. induction s as [|c s IH]; intros [|n]; cbn.
  - now exists ""%string.
  - now exists ""%string.
  - now exists (String c s).
  - destruct (IH n) as (rest & Hrest). exists rest.
    change (String c s = String c (String.substring 0 n s +:+ rest)).
    f_equal. exact Hrest.
Qed.

Lemma substring_0_all (n : nat) (s : string) :
  (String.length s <= n)%nat -> String.substring 0 n s = s.
Proof.
  revert n. induction s as [|c s IH]; intros [|n] Hn; cbn in *;
    try reflexivity; try lia.
  rewrite IH by lia. reflexivity.
Qed.

(** X13.  For a length from 0 to 36, the identifier has exactly that many
   characters and is the beginning of the UUID drawn. *)
Theorem random_id_has_requested_length (uuid : string) (n : Z) :
  String.length uuid = 36%nat ->
  0 <= n <= 36 ->
  exists id rest,
    RandomId.generateRandomId uuid (Some n) = Returned id
    /\ Z.of_nat (String.length id) = n
    /\ uuid = id +:+ rest.
Proof.
  intros Hlen Hn. unfold RandomId.generateRandomId, RandomId.substring_to.
  cbn [nullish]. destruct (Z.ltb_spec 36 n) as [?|_]; [lia|].
  set (k := Z.to_nat (Z.min (Z.max n 0) (Z.of_nat (String.length uuid)))).
  destruct (substring_0_prefix k uuid) as (rest & Hrest).
  exists (String.substring 0 k uuid), rest.
  split; [reflexivity|]. split; [|exact Hrest].
  rewrite substring_0_length. subst k. lia.
Qed.

(** X14.  Without a length, and with the length 36, the identifier is the
   whole UUID. *)
Theorem random_id_default_is_whole_uuid (uuid : string) :
  String.length uuid = 36%nat ->
  RandomId.generateRandomId uuid None = Returned uuid
  /\ RandomId.generateRandomId uuid (Some 36) = Returned uuid.
Proof.
  intros Hlen. unfold RandomId.generateRandomId, RandomId.substring_to.
  cbn [nullish]. rewrite Hlen. cbn.
  rewrite substring_0_all by lia. now split.
Qed.

(** X15.  The call throws exactly when the length exceeds 36, and then with
   the message of the source; in particular it does not throw for a
   negative length. *)
Theorem random_id_throws_iff_too_long (uuid : string) (n : Z) :
  ((exists exn, RandomId.generateRandomId uuid (Some n) = Thrown exn)
   <-> 36 < n)
  /\ (36 < n ->
      RandomId.generateRandomId uuid (Some n)
      = Thrown (JsError "max uuid v4 length is 36")).
Proof.
  unfold RandomId.generateRandomId. cbn [nullish].
  destruct (Z.ltb_spec 36 n) as [Hlong|Hshort]; split.
  - split; [intros _; exact Hlong|intros _; eauto].
  - reflexivity.
  - split; [intros (exn & Hexn); discriminate|lia].
  - lia.
Qed.

(** X16.  A length of zero or less yields the empty string, not an error. *)
Theorem random_id_nonpositive_length_is_empty (uuid : string) (n : Z) :
  n <= 0 ->
  RandomId.generateRandomId uuid (Some n) = Returned ""%string.
Proof.
  intros Hn. unfold RandomId.generateRandomId, RandomId.substring_to.
  cbn [nullish]. destruct (Z.ltb_spec 36 n) as [?|_]; [lia|].
  replace (Z.to_nat _) with O by lia.
  destruct uuid; reflexivity.
Qed.

(** * The helpers built on [fetch] *)

Definition is_error_instance (v : Http.JsValue) : Prop :=
  exists name message, v = Http.ErrorInstance name message.

Lemma catch_block_error (error : Http.JsValue) :
  is_error_instance (Http.catch_block error).
Proof. destruct error as [name message|shown]; cbn; now eexists _, _. Qed.

Ltac error_instance :=
  first [apply catch_block_error
        |unfold is_error_instance, Http.new_Error; now eexists _, _].

Lemma after_fetch_error {T A : Type} (read : T -> A)
    (response : Http.Response T) (thrown : Http.JsValue) :
  Http.after_fetch read response = Rejects thrown ->
  is_error_instance thrown.
Proof.
  unfold Http.after_fetch.
  destruct (negb (Http.ok response)).
  - destruct (Http.text response); intros [= <-]; error_instance.
  - destruct (Http.json response); [discriminate|].
    intros [= <-]. error_instance.
Qed.

(** X17.  None of the three helpers ever rejects with something that is not
   an instance of [Error]: whatever [fetch], [text()], [json()] or
   [JSON.stringify] throw, what comes out is an [Error]. *)
Theorem helpers_reject_only_with_errors {P T : Type} :
  (forall JSON_stringify toUpperCase (fetch : Http.Fetch T)
          endpoint resource method (payload : option P) headers thrown,
      fst (Http.httpCall JSON_stringify toUpperCase fetch endpoint resource
             method payload headers) = Rejects thrown ->
      is_error_instance thrown)
  /\ (forall base64 toString fetch url clientId clientSecret scopes thrown,
        fst (Http.generateAccessToken base64 toString fetch url clientId
               clientSecret scopes) = Rejects thrown ->
        is_error_instance thrown)
  /\ (forall JSON_stringify env fetch params thrown,
        fst (Http.generateUserAccessToken JSON_stringify env fetch params)
        = Rejects thrown ->
        is_error_instance thrown).
Proof.
  split; [|split].
  - intros JSON_stringify toUpperCase fetch endpoint resource method payload
      headers thrown.
    unfold Http.httpCall. cbv zeta.
    destruct payload as [payload|]; [destruct (JSON_stringify payload)|].
    all: try (cbn [fst]; intros [= <-]; error_instance).
    all: destruct (fetch _ _); cbn [fst];
      [apply after_fetch_error|intros [= <-]; error_instance].
  - intros base64 toString fetch url clientId clientSecret scopes thrown.
    unfold Http.generateAccessToken. cbv zeta.
    destruct (fetch _ _); cbn [fst];
      [apply after_fetch_error|intros [= <-]; error_instance].
  - intros JSON_stringify env fetch params thrown.
    unfold Http.generateUserAccessToken. cbv zeta.
    destruct (negb (truthy_string _));
      [cbn [fst]; intros [= <-]; error_instance|].
    destruct (negb (truthy_string _));
      [cbn [fst]; intros [= <-]; error_instance|].
    destruct (fetch _ _); cbn [fst];
      [apply after_fetch_error|intros [= <-]; error_instance].
Qed.


(** X19.  The request of [httpCall]: one call of [fetch], to the endpoint
   followed by the resource, with a ten second timeout; every header of
   the caller is sent with the caller's value, [Content-Type] is
   [application/json] unless the caller gives a header of that very
   name, and no other header is added; there is a body exactly when
   there is a payload, and it is the serialized payload. *)
Theorem httpCall_request {P T : Type}
    (JSON_stringify : P -> Reply string Http.JsValue) toUpperCase
    (fetch : Http.Fetch T) endpoint resource method payload headers :
  (forall p, payload = Some p -> exists text, JSON_stringify p = Resolves text) ->
  exists init,
    snd (Http.httpCall JSON_stringify toUpperCase fetch endpoint resource
           method payload headers) = [(endpoint +:+ resource, init)]
    /\ Http.signal init = 10000
    /\ Http.method init = toUpperCase method
    /\ (forall name value,
          nullish headers ∅ !! name = Some value ->
          Http.headers init !! name = Some value)
    /\ (nullish headers ∅ !! "Content-Type"%string = None ->
        Http.headers init !! "Content-Type"%string
        = Some "application/json"%string)
    /\ (forall name, name <> "Content-Type"%string ->
          Http.headers init !! name = nullish headers ∅ !! name)
    /\ Http.body init
       = match payload with
         | Some p =>
             match JSON_stringify p with
             | Resolves text => Some text
             | Rejects _ => None
             end
         | None => None
         end.
Proof.
  intros Hok. unfold Http.httpCall. cbv zeta.
  set (sent := spread2 _ _).
  assert (Hheaders :
    (forall name value,
        nullish headers ∅ !! name = Some value -> sent !! name = Some value)
    /\ (nullish headers ∅ !! "Content-Type"%string = None ->
        sent !! "Content-Type"%string = Some "application/json"%string)
    /\ (forall name, name <> "Content-Type"%string ->
          sent !! name = nullish headers ∅ !! name)).
  { subst sent. unfold spread2. split; [|split].
    - intros name value Hvalue. now apply lookup_union_Some_l.
    - intros Hnone. rewrite lookup_union_r by exact Hnone.
      apply lookup_singleton_eq.
    - intros name Hname.
      destruct (nullish headers ∅ !! name) as [value|] eqn:Hvalue.
      + now apply lookup_union_Some_l.
      + rewrite lookup_union_r by exact Hvalue.
        apply lookup_singleton_ne. congruence. }
  destruct Hheaders as (Hcaller & Hdefault & Hother).
  destruct payload as [p|].
  - destruct (Hok p eq_refl) as (text & Htext). rewrite Htext.
    eexists. destruct (fetch _ _); cbn [snd];
      (split; [reflexivity|]); cbn; repeat split; auto.
  - eexists. destruct (fetch _ _); cbn [snd];
      (split; [reflexivity|]); cbn; repeat split; auto.
Qed.

(** X20.  What [httpCall] makes of the answer to its request.  A rejected
   [fetch] is rethrown as it is when it is an [Error], and wrapped as
   [Unknown error: ...] otherwise.  A response that is not [ok] becomes
   [API Error: <status> - <text>], and its body is not parsed as JSON;
   an [ok] response yields its parsed body. *)
Theorem httpCall_outcome {P T : Type}
    (JSON_stringify : P -> Reply string Http.JsValue) toUpperCase
    (fetch : Http.Fetch T) endpoint resource method payload headers url init :
  let call := Http.httpCall JSON_stringify toUpperCase fetch endpoint resource
                method payload headers in
  snd call = [(url, init)] ->
  (forall name message,
      fetch url init = Rejects (Http.ErrorInstance name message) ->
      fst call = Rejects (Http.ErrorInstance name message))
  /\ (forall shown,
        fetch url init = Rejects (Http.NonError shown) ->
        fst call = Rejects (Http.new_Error ("Unknown error: " +:+ shown)))
  /\ (forall response errorData,
        fetch url init = Resolves response ->
        Http.ok response = false ->
        Http.text response = Resolves errorData ->
        fst call
        = Rejects (Http.new_Error
                     ("API Error: " +:+ pretty (Http.status response)
                      +:+ " - " +:+ errorData)))
  /\ (forall response data,
        fetch url init = Resolves response ->
        Http.ok response = true ->
        Http.json response = Resolves data ->
        fst call = Resolves data).
Proof.
  intros call. subst call. unfold Http.httpCall. cbv zeta.
  destruct (match payload with Some _ => _ | None => _ end) as [body|error];
    [|discriminate].
  destruct (fetch _ _) as [response|error] eqn:Hfetch;
    cbn [fst snd]; intros [= <- <-]; rewrite Hfetch.
  - repeat split; try discriminate.
    + intros response' errorData [= <-] Hok Htext.
      unfold Http.after_fetch. now rewrite Hok, Htext.
    + intros response' data [= <-] Hok Hjson.
      unfold Http.after_fetch. now rewrite Hok, Hjson.
  - repeat split; try discriminate.
    + now intros name message [= ->].
    + now intros shown [= ->].
Qed.

(** X21.  The request of [generateAccessToken]: one POST to the token
   endpoint under [url], with the Basic credentials of the client and
   a form body.  The form has the grant type only when [scopes] is left
   out or empty (no empty [scope] field is sent), and the grant type
   followed by one [scope] field, the scopes joined by single spaces,
   otherwise. *)
Theorem token_request {base64 : string -> string}
    {toString : list (string * string) -> string}
    (fetch : Http.Fetch Http.TokenBody) (url clientId clientSecret : string)
    (scopes : option (list string)) :
  exists init,
    snd (Http.generateAccessToken base64 toString fetch url clientId
           clientSecret scopes) = [(url +:+ "/oauth2/token", init)]
    /\ Http.method init = "POST"%string
    /\ Http.headers init !! "Authorization"%string
       = Some ("Basic " +:+ base64 (clientId +:+ ":" +:+ clientSecret))
    /\ Http.headers init !! "Content-Type"%string
       = Some "application/x-www-form-urlencoded"%string
    /\ Http.body init
       = Some (toString
                 match scopes with
                 | None | Some [] =>
                     [("grant_type"%string, "client_credentials"%string)]
                 | Some (first :: rest) =>
                     [("grant_type"%string, "client_credentials"%string);
                      ("scope"%string, String.concat " " (first :: rest))]
                 end).
Proof.
  unfold Http.generateAccessToken. cbv zeta. eexists.
  split; [destruct (fetch _ _); reflexivity|].
  cbn [Http.method Http.headers Http.body].
  split; [reflexivity|]. split; [apply lookup_insert_eq|].
  split; [rewrite lookup_insert_ne by discriminate; apply lookup_singleton_eq|].
  destruct scopes as [[|first rest]|]; reflexivity.
Qed.


(** The region and the client id that [generateUserAccessToken] uses:
   the parameter when it is given, the environment variable otherwise. *)
Definition resolved_region (env : gmap string string)
    (params : Http.UserAccessTokenParams) : option string :=
  Http.nullish_or (Http.region params) (env !! "AWS_REGION"%string).

Definition resolved_clientId (env : gmap string string)
    (params : Http.UserAccessTokenParams) : option string :=
  Http.nullish_or (Http.clientId params) (env !! "USER_POOL_CLIENT_ID"%string).

(** X23.  [generateUserAccessToken] calls [fetch] exactly when both the
   region and the client id resolve to a non-empty string.  Otherwise
   it makes no request and throws: the region error when the region is
   missing, whatever the client id, and the client id error when only
   the client id is missing. *)
Theorem user_token_validation {JSON_stringify : Http.InitiateAuth -> string}
    (env : gmap string string) (fetch : Http.Fetch Http.InitiateAuthBody)
    (params : Http.UserAccessTokenParams) :
  let call := Http.generateUserAccessToken JSON_stringify env fetch params in
  (truthy_string (resolved_region env params) = false ->
   call = (Rejects (Http.new_Error
             "region is required — pass it explicitly or set AWS_REGION"),
           []))
  /\ (truthy_string (resolved_region env params) = true ->
      truthy_string (resolved_clientId env params) = false ->
      call = (Rejects (Http.new_Error
                "clientId is required — pass it explicitly or set USER_POOL_CLIENT_ID"),
              []))
  /\ (length (snd call) = 1%nat
      <-> truthy_string (resolved_region env params) = true
          /\ truthy_string (resolved_clientId env params) = true)
  /\ (length (snd call) <= 1)%nat.
Proof.
  intros call. subst call.
  unfold Http.generateUserAccessToken, resolved_region, resolved_clientId.
  cbv zeta.
  destruct (truthy_string (Http.nullish_or (Http.region params) _));
    destruct (truthy_string (Http.nullish_or (Http.clientId params) _));
    cbn [negb]; try destruct (fetch _ _); cbn [snd length];
    repeat split; intros; try reflexivity; try discriminate; try lia;
    intuition discriminate.
Qed.

(** X24.  An explicit parameter shadows the environment.  An empty [region]
   (or [clientId]) parameter does not fall back to the variable: the
   call fails as if nothing were set.  When both parameters are given
   and non-empty, the environment has no influence at all. *)
Theorem explicit_parameters_shadow_environment
    {JSON_stringify : Http.InitiateAuth -> string}
    (fetch : Http.Fetch Http.InitiateAuthBody)
    (params : Http.UserAccessTokenParams) :
  (Http.region params = Some ""%string ->
   forall env,
     Http.generateUserAccessToken JSON_stringify env fetch params
     = (Rejects (Http.new_Error
          "region is required — pass it explicitly or set AWS_REGION"), []))
  /\ (forall r, Http.region params = Some r -> r <> ""%string ->
      Http.clientId params = Some ""%string ->
      forall env,
        Http.generateUserAccessToken JSON_stringify env fetch params
        = (Rejects (Http.new_Error
             "clientId is required — pass it explicitly or set USER_POOL_CLIENT_ID"),
           []))
  /\ (forall r c, Http.region params = Some r -> r <> ""%string ->
      Http.clientId params = Some c -> c <> ""%string ->
      forall env env',
        Http.generateUserAccessToken JSON_stringify env fetch params
        = Http.generateUserAccessToken JSON_stringify env' fetch params).
Proof.
  unfold Http.generateUserAccessToken. cbv zeta. split; [|split].
  - intros -> env. reflexivity.
  - intros r -> Hr -> env. cbn [Http.nullish_or].
    now rewrite (truthy_nonempty r Hr).
  - intros r c -> Hr -> Hc env env'. reflexivity.
Qed.

(** X25.  The request of [generateUserAccessToken] once region [r] and client
   id [c] are resolved: one POST to the Cognito endpoint of [r], with
   the [InitiateAuth] target header and a body that serializes the
   password flow with [c] and the caller's email and password; an [ok]
   response yields its [AuthenticationResult.AccessToken], any other
   one [API Error: <status> - <text>]. *)
Theorem user_token_request {JSON_stringify : Http.InitiateAuth -> string}
    (env : gmap string string) (fetch : Http.Fetch Http.InitiateAuthBody)
    (params : Http.UserAccessTokenParams) (r c : string) :
  resolved_region env params = Some r -> r <> ""%string ->
  resolved_clientId env params = Some c -> c <> ""%string ->
  let call := Http.generateUserAccessToken JSON_stringify env fetch params in
  let target := ("https://cognito-idp." +:+ r +:+ ".amazonaws.com/")%string in
  exists init,
    snd call = [(target, init)]
    /\ Http.method init = "POST"%string
    /\ Http.headers init !! "X-Amz-Target"%string
       = Some "AWSCognitoIdentityProviderService.InitiateAuth"%string
    /\ Http.headers init !! "Content-Type"%string
       = Some "application/x-amz-json-1.1"%string
    /\ Http.body init
       = Some (JSON_stringify
                 {| Http.AuthFlow := "USER_PASSWORD_AUTH";
                    Http.ClientId := c;
                    Http.USERNAME := Http.email params;
                    Http.PASSWORD := Http.password params |})
    /\ (forall response data,
          fetch target init = Resolves response ->
          Http.ok response = true ->
          Http.json response = Resolves data ->
          fst call
          = Resolves (Http.AccessToken (Http.AuthenticationResult data)))
    /\ (forall response errorData,
          fetch target init = Resolves response ->
          Http.ok response = false ->
          Http.text response = Resolves errorData ->
          fst call
          = Rejects (Http.new_Error
                       ("API Error: " +:+ pretty (Http.status response)
                        +:+ " - " +:+ errorData))).
Proof.
  intros Hregion Hr Hclient Hc call target. subst call target.
  unfold resolved_region, resolved_clientId in Hregion, Hclient.
  unfold Http.generateUserAccessToken. cbv zeta.
  rewrite Hregion, Hclient, (truthy_nonempty r Hr), (truthy_nonempty c Hc).
  cbn [negb nullish]. eexists.
  split; [destruct (fetch _ _); reflexivity|].
  cbn [Http.method Http.headers Http.body].
  split; [reflexivity|]. split; [apply lookup_insert_eq|].
  split; [rewrite lookup_insert_ne by discriminate; apply lookup_singleton_eq|].
  split; [reflexivity|]. split.
  - intros response data Hfetch Hok Hjson. rewrite Hfetch. cbn [fst].
    unfold Http.after_fetch. now rewrite Hok, Hjson.
  - intros response errorData Hfetch Hok Htext. rewrite Hfetch. cbn [fst].
    unfold Http.after_fetch. now rewrite Hok, Htext.
Qed.

(** * Concrete calls of the other helpers *)

Module MoreExamples.

Definition uuid1 : string := "123e4567-e89b-42d3-a456-426614174000".

(** An endpoint that answers 404 with a text body. *)
Definition not_found_page : Http.Fetch string :=
  fun _ _ =>
    Resolves {| Http.ok := false; Http.status := 404;
                Http.text := Resolves "Not Found"%string;
                Http.json := Rejects (Http.ErrorInstance "SyntaxError" "Unexpected token") |}.

(** An endpoint that answers 200 with a JSON body. *)
Definition found_page : Http.Fetch string :=
  fun _ _ =>
    Resolves {| Http.ok := true; Http.status := 200;
                Http.text := Resolves "{}"%string;
                Http.json := Resolves "{}"%string |}.

(** A [fetch] that rejects with a value that is not an [Error]. *)
Definition broken_fetch {T : Type} : Http.Fetch T :=
  fun _ _ => Rejects (Http.NonError "boom").

(** A [fetch] that rejects with a network error. *)
Definition offline {T : Type} : Http.Fetch T :=
  fun _ _ => Rejects (Http.ErrorInstance "TypeError" "fetch failed").

Definition serialize : string -> Reply string Http.JsValue :=
  fun payload => Resolves payload.


Definition upper : string -> string :=
  fun s => if String.eqb s "post" then "POST"%string else s.


Definition cognito : Http.Fetch Http.InitiateAuthBody :=
  fun _ _ =>
    Resolves {| Http.ok := true; Http.status := 200;
                Http.text := Resolves ""%string;
                Http.json :=
                  Resolves {| Http.AuthenticationResult :=
                                {| Http.AccessToken := "t0k3n" |} |} |}.

Definition show_auth (request : Http.InitiateAuth) : string :=
  Http.ClientId request +:+ "/" +:+ Http.USERNAME request.

Definition eu_env : gmap string string :=
  {[ "AWS_REGION"%string := "eu-west-1"%string;
     "USER_POOL_CLIENT_ID"%string := "env-client"%string ]}.

Definition tester (region clientId : option string)
  : Http.UserAccessTokenParams :=
  {| Http.email := "test@example.com"; Http.password := "secret";
     Http.clientId := clientId; Http.region := region |}.

Definition no_budget : Query.QueryParams string :=
  {| Query.tableName := "orders-table";
     Query.keyConditionExpression := "pk = :pk";
     Query.expressionAttributeValues := {[ ":pk"%string := "A"%string ]};
     Query.expressionAttributeNames := None;
     Query.indexName := None;
     Query.limit := None;
     Query.filterExpression := Some "createdAt > :date"%string;
     Query.filterAttributeValues := None;
     Query.consistentRead := None;
     Query.lastEvaluatedKey := None;
     Query.scanIndexForward := None;
     Query.maxIterations := Some 0;
     Query.delayInSeconds := None |}.

End MoreExamples.
Import MoreExamples.

Lemma no_budget_no_call_witness :
  GetItem.getItem there_on_third profile1 "users" (Some (-1)) None
  = (Thrown (JsError "record not found"), [])
  /\ Query.query order_on_third no_budget
     = (Thrown (JsError "query returned no results after max retries"), []).
Proof.
  split.
  - apply (proj1 (@no_budget_no_call string string)
             there_on_third profile1 "users"%string (Some (-1)) None).
    cbn. lia.
  - apply (proj2 (@no_budget_no_call string string) order_on_third no_budget).
    cbn. lia.
Defined.

Lemma not_found_means_budget_spent_witness :
  snd (GetItem.getItem never_there user1 "users" (Some 3) (Some 1))
  = failed_rounds (GetItem.getItem_params user1 "users") 1 3
  /\ snd (Query.query no_orders orders)
     = failed_rounds (Query.query_params orders) 1 3.
Proof.
  split.
  - destruct (proj1 (@not_found_means_budget_spent string string)
                never_there user1 "users"%string (Some 3) (Some 1)
                "record not found"%string) as (_ & Hrun & _).
    + vm_compute. reflexivity.
    + exact Hrun.
  - destruct (proj2 (@not_found_means_budget_spent string string)
                no_orders orders
                "query returned no results after max retries"%string)
      as (_ & Hrun & _).
    + vm_compute. reflexivity.
    + exact Hrun.
Defined.

Lemma returned_value_from_last_response_witness :
  (exists k response,
      (k < Z.to_nat 5)%nat
      /\ snd (GetItem.getItem there_on_third profile1 "users" (Some 5) None)
         = failed_rounds (GetItem.getItem_params profile1 "users") 2 k
             ++ [EvSend (GetItem.getItem_params profile1 "users")]
      /\ there_on_third
           (failed_rounds (GetItem.getItem_params profile1 "users") 2 k)
           (GetItem.getItem_params profile1 "users") = Resolves response
      /\ GetItem.Item response = Some active
      /\ forall j, (j < k)%nat ->
           getItem_finds_nothing there_on_third
             (GetItem.getItem_params profile1 "users")
             (failed_rounds (GetItem.getItem_params profile1 "users") 2 j))
  /\
  (exists k data,
      (k < Z.to_nat 3)%nat
      /\ snd (Query.query order_on_third orders)
         = failed_rounds (Query.query_params orders) 1 k
             ++ [EvSend (Query.query_params orders)]
      /\ order_on_third (failed_rounds (Query.query_params orders) 1 k)
           (Query.query_params orders) = Resolves data
      /\ [active] = Query.page_items data
      /\ None = Query.LastEvaluatedKey data
      /\ forall j, (j < k)%nat ->
           query_finds_nothing order_on_third (Query.query_params orders)
             (failed_rounds (Query.query_params orders) 1 j)).
Proof.
  split.
  - apply (proj1 (@returned_value_from_last_response string string)
             there_on_third profile1 "users"%string (Some 5) None active).
    vm_compute. reflexivity.
  - apply (proj2 (@returned_value_from_last_response string string)
             order_on_third orders
             {| Query.items := [active];
                Query.resultLastEvaluatedKey := None |}).
    vm_compute. reflexivity.
Defined.

Lemma returned_page_never_empty_without_token_witness :
  Query.items (V := string)
    {| Query.items := [active]; Query.resultLastEvaluatedKey := None |} <> []
  \/ Query.resultLastEvaluatedKey (V := string)
       {| Query.items := [active]; Query.resultLastEvaluatedKey := None |}
     <> None.
Proof.
  apply (@returned_page_never_empty_without_token string string
           order_on_third orders).
  vm_compute. reflexivity.
Defined.

Lemma thrown_store_error_from_last_call_witness :
  (exists k,
      (k < Z.to_nat 3)%nat
      /\ snd (GetItem.getItem denied_on_second user1 "users" (Some 3) (Some 1))
         = failed_rounds (GetItem.getItem_params user1 "users") 1 k
             ++ [EvSend (GetItem.getItem_params user1 "users");
                 EvConsoleError "AccessDeniedException"%string]
      /\ denied_on_second
           (failed_rounds (GetItem.getItem_params user1 "users") 1 k)
           (GetItem.getItem_params user1 "users")
         = Rejects "AccessDeniedException"%string
      /\ forall j, (j < k)%nat ->
           getItem_finds_nothing denied_on_second
             (GetItem.getItem_params user1 "users")
             (failed_rounds (GetItem.getItem_params user1 "users") 1 j))
  /\
  (exists k,
      (k < Z.to_nat 3)%nat
      /\ snd (Query.query throttled_on_second orders)
         = failed_rounds (Query.query_params orders) 1 k
             ++ [EvSend (Query.query_params orders);
                 EvConsoleError "ProvisionedThroughputExceededException"%string]
      /\ throttled_on_second (failed_rounds (Query.query_params orders) 1 k)
           (Query.query_params orders)
         = Rejects "ProvisionedThroughputExceededException"%string
      /\ forall j, (j < k)%nat ->
           query_finds_nothing throttled_on_second (Query.query_params orders)
             (failed_rounds (Query.query_params orders) 1 j)).
Proof.
  split.
  - apply (proj1 (@thrown_store_error_from_last_call string string)
             denied_on_second user1 "users"%string (Some 3) (Some 1)
             "AccessDeniedException"%string).
    vm_compute. reflexivity.
  - apply (proj2 (@thrown_store_error_from_last_call string string)
             throttled_on_second orders
             "ProvisionedThroughputExceededException"%string).
    vm_compute. reflexivity.
Defined.

Lemma partition_key_always_sent_witness :
  GetItem.Key (GetItem.getItem_params empty_sort "users") !! "status"%string
  = None.
Proof.
  apply (proj2 (proj2 (proj2 (partition_key_always_sent empty_sort "users")))
           "status"%string); discriminate.
Defined.

Lemma falsy_filter_expression_ignored_witness :
  Query.FilterExpression (Query.query_params (with_filter "")) = None
  /\ Query.ExpressionAttributeValues (Query.query_params (with_filter ""))
     = Query.expressionAttributeValues (with_filter "").
Proof.
  apply (@falsy_filter_expression_ignored string (with_filter "")).
  reflexivity.
Defined.

Lemma filter_expression_without_values_witness :
  Query.FilterExpression (Query.query_params no_budget)
  = Some "createdAt > :date"%string
  /\ Query.ExpressionAttributeValues (Query.query_params no_budget)
     = Query.expressionAttributeValues no_budget.
Proof.
  apply (@filter_expression_without_values string no_budget
           "createdAt > :date"%string).
  - reflexivity.
  - discriminate.
  - reflexivity.
Defined.

Lemma merged_values_keep_every_name_witness :
  dom (Query.ExpressionAttributeValues
         (Query.query_params (with_filter "createdAt > :date")))
  = dom (Query.expressionAttributeValues (with_filter "createdAt > :date"))
      ∪ dom ({[ ":pk"%string := "B"%string ]} : gmap string string)
  /\ forall name,
       ({[ ":pk"%string := "B"%string ]} : gmap string string) !! name = None ->
       Query.ExpressionAttributeValues
         (Query.query_params (with_filter "createdAt > :date")) !! name
       = Query.expressionAttributeValues (with_filter "createdAt > :date")
           !! name.
Proof.
  apply (@merged_values_keep_every_name string
           (with_filter "createdAt > :date") "createdAt > :date"%string
           {[ ":pk"%string := "B"%string ]}).
  - reflexivity.
  - discriminate.
  - reflexivity.
Defined.

Lemma random_id_has_requested_length_witness :
  exists id rest,
    RandomId.generateRandomId uuid1 (Some 8) = Returned id
    /\ Z.of_nat (String.length id) = 8
    /\ uuid1 = id +:+ rest.
Proof.
  apply (random_id_has_requested_length uuid1 8).
  - reflexivity.
  - lia.
Defined.

Lemma random_id_default_is_whole_uuid_witness :
  RandomId.generateRandomId uuid1 None = Returned uuid1
  /\ RandomId.generateRandomId uuid1 (Some 36) = Returned uuid1.
Proof. apply (random_id_default_is_whole_uuid uuid1). reflexivity. Defined.

Lemma random_id_throws_iff_too_long_witness :
  RandomId.generateRandomId uuid1 (Some 37)
  = Thrown (JsError "max uuid v4 length is 36").
Proof. apply (proj2 (random_id_throws_iff_too_long uuid1 37)). lia. Defined.

Lemma random_id_nonpositive_length_is_empty_witness :
  RandomId.generateRandomId uuid1 (Some (-5)) = Returned ""%string.
Proof. apply (random_id_nonpositive_length_is_empty uuid1 (-5)). lia. Defined.

Lemma helpers_reject_only_with_errors_witness :
  is_error_instance (Http.new_Error "Unknown error: boom")
  /\ is_error_instance (Http.new_Error "Unknown error: boom")
  /\ is_error_instance
       (Http.new_Error
          "region is required — pass it explicitly or set AWS_REGION").
Proof.
  split; [|split].
  - apply (proj1 (@helpers_reject_only_with_errors string string)
             serialize upper broken_fetch "https://api.example.com"%string
             "/data"%string "get"%string None None).
    reflexivity.
  - apply (proj1 (proj2 (@helpers_reject_only_with_errors string string))
             id (fun _ => ""%string) broken_fetch
             "https://auth.example.com"%string "id"%string "secret"%string
             None).
    reflexivity.
  - apply (proj2 (proj2 (@helpers_reject_only_with_errors string string))
             show_auth ∅ cognito (tester None None)).
    reflexivity.
Defined.


Lemma httpCall_request_witness :
  exists init,
    snd (Http.httpCall serialize upper found_page "https://api.example.com"
           "/orders" "post" (Some "{}"%string)
           (Some {[ "Authorization"%string := "Bearer t0k3n"%string ]}))
    = [("https://api.example.com" +:+ "/orders", init)]
    /\ Http.signal init = 10000
    /\ Http.method init = upper "post"
    /\ (forall name value,
          nullish (Some ({[ "Authorization"%string := "Bearer t0k3n"%string ]}
                         : gmap string string)) ∅ !! name = Some value ->
          Http.headers init !! name = Some value)
    /\ (nullish (Some ({[ "Authorization"%string := "Bearer t0k3n"%string ]}
                       : gmap string string)) ∅ !! "Content-Type"%string = None ->
        Http.headers init !! "Content-Type"%string
        = Some "application/json"%string)
    /\ (forall name, name <> "Content-Type"%string ->
          Http.headers init !! name
          = nullish (Some ({[ "Authorization"%string := "Bearer t0k3n"%string ]}
                           : gmap string string)) ∅ !! name)
    /\ Http.body init
       = match Some "{}"%string with
         | Some p =>
             match serialize p with
             | Resolves text => Some text
             | Rejects _ => None
             end
         | None => None
         end.
Proof.
  apply (@httpCall_request string string serialize upper found_page).
  intros p [= <-]. exists "{}"%string. reflexivity.
Defined.

Definition get_missing : string * Http.RequestInit :=
  ("https://api.example.com/missing"%string,
   {| Http.method := "GET";
      Http.headers := {[ "Content-Type"%string := "application/json"%string ]};
      Http.body := None;
      Http.signal := 10000 |}).

Lemma httpCall_outcome_witness :
  fst (Http.httpCall serialize upper not_found_page "https://api.example.com"
         "/missing" "GET" None None)
  = Rejects (Http.new_Error "API Error: 404 - Not Found").
Proof.
  apply (proj1 (proj2 (proj2
           (@httpCall_outcome string string serialize upper not_found_page
              "https://api.example.com"%string "/missing"%string "GET"%string
              None None (fst get_missing) (snd get_missing) eq_refl)))
           {| Http.ok := false; Http.status := 404;
              Http.text := Resolves "Not Found"%string;
              Http.json := Rejects (Http.ErrorInstance "SyntaxError"
                                      "Unexpected token") |}
           "Not Found"%string).
  - reflexivity.
  - reflexivity.
  - reflexivity.
Defined.



Lemma user_token_validation_witness :
  Http.generateUserAccessToken show_auth ∅ cognito (tester None None)
  = (Rejects (Http.new_Error
       "region is required — pass it explicitly or set AWS_REGION"), [])
  /\ Http.generateUserAccessToken show_auth ∅ cognito
       (tester (Some "us-east-1"%string) None)
     = (Rejects (Http.new_Error
          "clientId is required — pass it explicitly or set USER_POOL_CLIENT_ID"),
        []).
Proof.
  split.
  - apply (proj1 (@user_token_validation show_auth ∅ cognito
                    (tester None None))).
    reflexivity.
  - apply (proj1 (proj2 (@user_token_validation show_auth ∅ cognito
                           (tester (Some "us-east-1"%string) None)))).
    + reflexivity.
    + reflexivity.
Defined.

Lemma explicit_parameters_shadow_environment_witness :
  Http.generateUserAccessToken show_auth eu_env cognito
    (tester (Some ""%string) (Some "my-client"%string))
  = (Rejects (Http.new_Error
       "region is required — pass it explicitly or set AWS_REGION"), [])
  /\ Http.generateUserAccessToken show_auth eu_env cognito
       (tester (Some "us-east-1"%string) (Some ""%string))
     = (Rejects (Http.new_Error
          "clientId is required — pass it explicitly or set USER_POOL_CLIENT_ID"),
        [])
  /\ Http.generateUserAccessToken show_auth eu_env cognito
       (tester (Some "us-east-1"%string) (Some "my-client"%string))
     = Http.generateUserAccessToken show_auth ∅ cognito
         (tester (Some "us-east-1"%string) (Some "my-client"%string)).
Proof.
  split; [|split].
  - apply (proj1 (@explicit_parameters_shadow_environment show_auth cognito
                    (tester (Some ""%string) (Some "my-client"%string)))).
    reflexivity.
  - apply (proj1 (proj2 (@explicit_parameters_shadow_environment show_auth
                           cognito
                           (tester (Some "us-east-1"%string) (Some ""%string))))
             "us-east-1"%string).
    + reflexivity.
    + discriminate.
    + reflexivity.
  - apply (proj2 (proj2 (@explicit_parameters_shadow_environment show_auth
                           cognito
                           (tester (Some "us-east-1"%string)
                              (Some "my-client"%string))))
             "us-east-1"%string "my-client"%string).
    + reflexivity.
    + discriminate.
    + reflexivity.
    + discriminate.
Defined.

Lemma user_token_request_witness :
  exists init,
    snd (Http.generateUserAccessToken show_auth eu_env cognito
           (tester None None))
    = [("https://cognito-idp." +:+ "eu-west-1" +:+ ".amazonaws.com/", init)]
    /\ Http.body init
       = Some (show_auth
                 {| Http.AuthFlow := "USER_PASSWORD_AUTH";
                    Http.ClientId := "env-client";
                    Http.USERNAME := "test@example.com";
                    Http.PASSWORD := "secret" |}).
Proof.
  destruct (@user_token_request show_auth eu_env cognito (tester None None)
              "eu-west-1"%string "env-client"%string)
    as (init & Hcall & _ & _ & _ & Hbody & _).
  - vm_compute. reflexivity.
  - discriminate.
  - vm_compute. reflexivity.
  - discriminate.
  - exists init. split; [exact Hcall|exact Hbody].
Defined.
